(** * umoci repack: a shallow embedding of [cmd/umoci/repack.go]

    The [repack] command reads the metadata of an unpacked bundle, compares
    the live root filesystem with the mtree manifest recorded at unpack time,
    turns the differences into a new layer, appends that layer to the base
    image through a mutator and finally moves the tag to the new manifest.

    [repack] is an orchestrating function: everything it does is a call into
    another package (bundle metadata, the CAS engine, the mutator, go-mtree,
    the layer generator, the clock, the logger).  Those calls are modelled as
    the constructors of a signature [Call]; [repack] itself is a program over
    this signature, written statement by statement after the Go source, with
    Go's [defer] and the panics of failed type assertions made explicit.
    A handler answers the calls; running a program under a handler gives the
    result, the final handler state and the trace of calls with their
    answers. *)

From Stdlib Require Import ZArith Ascii String List Bool Lia.
From stdpp Require Import base option list strings gmap.

Local Open Scope string_scope.
Local Open Scope list_scope.

(** ** Go standard library: the two pure functions [repack] uses *)

Module strings.

(** [strings.Replace(s, old, new, n)] for a non-empty [old] and [n >= 0]:
    the first [n] non-overlapping occurrences of [old], scanning from the
    left, are replaced by [new].  [skip] counts the bytes of a matched
    occurrence that are still to be dropped. *)
Fixpoint replace_from (old new : string) (skip n : nat) (s : string) : string :=
  match s with
  | EmptyString => EmptyString
  | String c s' =>
      match skip with
      | S skip' => replace_from old new skip' n s'
      | O =>
          match n with
          | O => s
          | S n' =>
              if String.prefix old s
              then new +:+ replace_from old new (String.length old - 1) n' s'
              else String c (replace_from old new 0 n s')
          end
      end
  end.

Definition Replace (s old new : string) (n : nat) : string :=
  if String.eqb old new then s else replace_from old new 0 n s.

End strings.

Module filepath.

(** [strings.Split(s, "/")]. *)
Fixpoint split (s : string) : list string :=
  match s with
  | EmptyString => [EmptyString]
  | String c s' =>
      if Ascii.eqb c "/" then EmptyString :: split s'
      else match split s' with
           | [] => [String c EmptyString]
           | e :: es => String c e :: es
           end
  end.

(** The element stack of [Clean]: empty and [.] elements are dropped, a
    [..] removes the element before it when there is one that is not
    itself a kept [..]; otherwise it is kept on a relative path and
    dropped on a rooted one.  [acc] is the stack, top first. *)
Fixpoint clean_elems (rooted : bool) (acc : list string) (elems : list string)
  : list string :=
  match elems with
  | [] => rev acc
  | e :: es =>
      if String.eqb e "" || String.eqb e "." then clean_elems rooted acc es
      else if String.eqb e ".." then
        match acc with
        | top :: acc' =>
            if String.eqb top ".." then clean_elems rooted (e :: acc) es
            else clean_elems rooted acc' es
        | [] =>
            if rooted then clean_elems rooted [] es
            else clean_elems rooted [e] es
        end
      else clean_elems rooted (e :: acc) es
  end.

Definition is_rooted (path : string) : bool :=
  match path with
  | String c _ => Ascii.eqb c "/"
  | EmptyString => false
  end.

(** [filepath.Clean] on a Unix system (no volume names). *)
Definition Clean (path : string) : string :=
  if String.eqb path "" then "."
  else
    let rooted := is_rooted path in
    let body := String.concat "/" (clean_elems rooted [] (split path)) in
    let out := if rooted then "/" +:+ body else body in
    if String.eqb out "" then "." else out.

(** [filepath.Join]: the elements from the first non-empty one on are
    joined with the separator and cleaned; all empty gives the empty
    string. *)
Fixpoint Join (elem : list string) : string :=
  match elem with
  | [] => ""
  | e :: es => if String.eqb e "" then Join es else Clean (String.concat "/" elem)
  end.

End filepath.

(** ** Data model *)

(** Go's [error] values.  [errors.Wrap(err, msg)] keeps the cause and adds
    the message; the errors of the other packages are arbitrary values. *)
Inductive Error : Type :=
| New (msg : string)
| Wrap (cause : Error) (msg : string).

Definition errors_Wrap (err : Error) (msg : string) : Error := Wrap err msg.

(** [fmt.Errorf(format, s)] for a format that ends in its only verb [%s]:
    [prefix] is the text before the verb. *)
Definition fmt_Errorf (prefix s : string) : Error := New (prefix +:+ s).

(** A call that returns [(value, error)]. *)
Definition result (A : Type) : Type := Error + A.

(** Values of type [interface{}] as stored in [ctx.App.Metadata]. *)
Inductive Iface : Type :=
| INil
| IString (s : string)
| IBool (b : bool)
| IInt (n : Z).

(** [ctx.App.Metadata], a [map[string]interface{}]. *)
Abbreviation Metadata := (gmap string Iface).

Module ispec.

(** Modelled from the spec: the descriptor type, declared outside
    [repack.go]: media type, algorithm-tagged digest and size, under the
    field names [repack] reads. *)
Record Descriptor : Type := {
  MediaType : string;
  Digest : string;
  Size : Z
}.

(** Modelled from the spec: the history record, declared outside
    [repack.go]: author, comment, creation time, created-by and the
    empty-layer flag, under the field names of the composite literal. *)
Record History : Type := {
  Created : string;
  CreatedBy : string;
  Author : string;
  Comment : string;
  EmptyLayer : bool
}.

End ispec.

Module layer.

(** One range of a uid or gid mapping: host id, container id, length.
    [repack] hands the mappings on and never looks into them. *)
Record IDMapping : Type := {
  HostID : Z;
  ContainerID : Z;
  IDSize : Z
}.

(** Modelled from the spec: the map options, declared outside
    [repack.go]: the uid and gid mappings and the rootless flag. *)
Record MapOptions : Type := {
  UIDMappings : list IDMapping;
  GIDMappings : list IDMapping;
  Rootless : bool
}.

End layer.

(** Modelled from the spec: the bundle metadata stored in [umoci.json],
    declared outside [repack.go]: schema version, the descriptor the bundle
    was unpacked from, and the map options, under the field names [repack]
    reads. *)
Record UmociMeta : Type := {
  Version : string;
  From : ispec.Descriptor;
  MapOptions : layer.MapOptions
}.

Module mtree.

Definition Keyword : Type := string.

(** A parsed manifest, kept as its lines; [repack] hands it from the
    parser to the comparison and never looks into it. *)
Definition DirectoryHierarchy : Type := list string.

(** Modelled from the spec: one difference between the manifest and the
    live tree: a path with its classification (in the manifest only, in the
    tree only, in both with a tracked attribute changed). *)
Inductive DifferenceType : Type := Missing | Extra | Modified.

Record InodeDelta : Type := {
  diff : DifferenceType;
  path : string
}.

End mtree.

Module umoci.

(** The two package-level filesystem evaluators [repack] chooses
    between. *)
Inductive FsEval : Type := DefaultFsEval | RootlessFsEval.

End umoci.

Module mutate.

(** What [Mutator.Meta] returns about the image being mutated; of it
    [repack] reads the author. *)
Record Meta : Type := {
  Author : string
}.

End mutate.

(** Handles of the objects the other packages hand out. *)
Definition Engine : Type := nat.
Definition Mutator : Type := nat.
Definition File : Type := nat.
Definition Reader : Type := nat.
Definition Time : Type := Z.

(** ** The calls [repack] makes *)

Inductive Call : Type -> Type :=
| ReadBundleMeta (bundle : string) : Call (result UmociMeta)
| logrus_Debugf (fields : list string) (msg : string) : Call unit
| logrus_Infof (fields : list string) (msg : string) : Call unit
| cas_Open (imagePath : string) : Call (result Engine)
| engine_Close (engine : Engine) : Call (option Error)
| mutate_New (engine : Engine) (from : ispec.Descriptor) : Call (result Mutator)
| os_Open (name : string) : Call (result File)
| file_Close (mfh : File) : Call (option Error)
| mtree_ParseSpec (mfh : File) : Call (result mtree.DirectoryHierarchy)
| mtree_Check (root : string) (spec : mtree.DirectoryHierarchy)
    (keywords : list mtree.Keyword) (fsEval : umoci.FsEval)
  : Call (result (list mtree.InodeDelta))
| layer_GenerateLayer (root : string) (diffs : list mtree.InodeDelta)
    (opt : layer.MapOptions) : Call (result Reader)
| reader_Close (reader : Reader) : Call (option Error)
| mutator_Meta (mutator : Mutator) : Call (result mutate.Meta)
| time_Now : Call Time
| mutator_Add (mutator : Mutator) (reader : Reader) (history : ispec.History)
  : Call (option Error)
| mutator_Commit (mutator : Mutator) : Call (result ispec.Descriptor)
| engine_DeleteReference (engine : Engine) (name : string) : Call (option Error)
| engine_PutReference (engine : Engine) (name : string)
    (descriptor : ispec.Descriptor) : Call (option Error).

(** Programs: a tree of calls, each continued by its answer. *)
Inductive Prog (R : Type) : Type :=
| Ret (r : R)
| Vis {A : Type} (c : Call A) (k : A -> Prog R).

Arguments Ret {R} r.
Arguments Vis {R A} c k.

Fixpoint bind {R S : Type} (p : Prog R) (f : R -> Prog S) : Prog S :=
  match p with
  | Ret r => f r
  | Vis c k => Vis c (fun a => bind (k a) f)
  end.

(** How a Go function ends: it returns its [error] (nil or not), or a
    run-time panic unwinds it. *)
Inductive Outcome : Type :=
| Returned (err : option Error)
| Panicked.

(** [defer c]: the deferred call runs when the rest of the function is over,
    whether it returned or panicked; what the call returns is dropped. *)
Definition defer {A : Type} (c : Call A) (rest : Prog Outcome) : Prog Outcome :=
  bind rest (fun out => Vis c (fun _ => Ret out)).

Definition fail (err : Error) : Prog Outcome := Ret (Returned (Some err)).

Declare Scope prog_scope.
Delimit Scope prog_scope with prog.

Notation "x <- c ;; k" := (Vis c (fun x => k))
  (at level 100, c at level 10, right associativity) : prog_scope.
Notation "c ;; k" := (Vis c (fun _ => k))
  (at level 100, right associativity) : prog_scope.
Notation "x <-? c 'or' msg ;; k" :=
  (Vis c (fun r => match r with
                   | inl err => fail (errors_Wrap err msg)
                   | inr x => k
                   end))
  (at level 100, c at level 10, msg at level 0, right associativity)
  : prog_scope.
Notation "'defer!' c ;; k" := (defer c k)
  (at level 100, c at level 10, right associativity) : prog_scope.

(** The type assertion [v.(string)] on the value found in the map ([None]
    is the nil interface a missing key gives): [None] stands for the
    panic. *)
Definition assert_string (v : option Iface) : option string :=
  match v with
  | Some (IString s) => Some s
  | _ => None
  end.

(** [if val, ok := m[key]; ok { field = val.(string) }]: the field keeps
    [dflt] when the key is absent, takes the string when the key holds one,
    and the assertion panics ([None]) on anything else. *)
Definition override (m : Metadata) (key : string) (dflt : string) : option string :=
  match m !! key with
  | None => Some dflt
  | Some v => assert_string (Some v)
  end.

(** ** The [repack] action *)

Section Repack.

(** Package-level values declared outside [repack.go]: the media type of
    an image manifest of the image specification, the keyword list of
    [cmd/umoci], the name of the root filesystem directory of a bundle, the
    time layout of [oci/generate], and [Time.Format] of the standard
    library. *)
Variable ispec_MediaTypeImageManifest : string.
Variable MtreeKeywords : list mtree.Keyword.
Variable layer_RootfsName : string.
Variable igen_ISO8601 : string.
Variable time_Format : Time -> string -> string.

(** The history entry with its defaults (the composite literal). *)
Definition default_history (imageMeta : mutate.Meta) (now : Time) : ispec.History :=
  {| ispec.Author := mutate.Author imageMeta;
     ispec.Comment := "";
     ispec.Created := time_Format now igen_ISO8601;
     ispec.CreatedBy := "umoci config";
     ispec.EmptyLayer := false |}.

(** The four conditional assignments from the [--history.*] keys, in the
    order of the source; [None] when one of the assertions panics. *)
Definition history_overrides (ctx : Metadata) (history : ispec.History)
  : option ispec.History :=
  author ← override ctx "--history.author" (ispec.Author history);
  comment ← override ctx "--history.comment" (ispec.Comment history);
  created ← override ctx "--history.created" (ispec.Created history);
  created_by ← override ctx "--history.created_by" (ispec.CreatedBy history);
  Some {| ispec.Author := author;
          ispec.Comment := comment;
          ispec.Created := created;
          ispec.CreatedBy := created_by;
          ispec.EmptyLayer := ispec.EmptyLayer history |}.

Definition repack (ctx : Metadata) : Prog Outcome :=
  match assert_string (ctx !! "--image-path") with
  | None => Ret Panicked
  | Some imagePath =>
  match assert_string (ctx !! "--image-tag") with
  | None => Ret Panicked
  | Some tagName =>
  match assert_string (ctx !! "bundle") with
  | None => Ret Panicked
  | Some bundlePath =>
  (meta <-? ReadBundleMeta bundlePath or "read umoci.json metadata" ;;
   logrus_Debugf ["version"; "from"; "map_options"]
     "umoci: loaded UmociMeta metadata" ;;
   if negb (String.eqb (ispec.MediaType (From meta)) ispec_MediaTypeImageManifest)
   then
     fail (errors_Wrap
             (fmt_Errorf
                "descriptor does not point to ispec.MediaTypeImageManifest: not implemented: "
                (ispec.MediaType (From meta)))
             "invalid saved from descriptor")
   else
   engine <-? cas_Open imagePath or "open CAS" ;;
   defer! engine_Close engine ;;
   mutator <-? mutate_New engine (From meta) or "create mutator for base image" ;;
   let mtreeName := strings.Replace (ispec.Digest (From meta)) "sha256:" "sha256_" 1 in
   let mtreePath := filepath.Join [bundlePath; mtreeName +:+ ".mtree"] in
   let fullRootfsPath := filepath.Join [bundlePath; layer_RootfsName] in
   logrus_Debugf ["image"; "bundle"; "rootfs"; "mtree"]
     "umoci: repacking OCI image" ;;
   mfh <-? os_Open mtreePath or "open mtree" ;;
   defer! file_Close mfh ;;
   spec <-? mtree_ParseSpec mfh or "parse mtree" ;;
   logrus_Debugf ["keywords"] "umoci: parsed mtree spec" ;;
   let fsEval :=
     if layer.Rootless (MapOptions meta)
     then umoci.RootlessFsEval else umoci.DefaultFsEval in
   diffs <-? mtree_Check fullRootfsPath spec MtreeKeywords fsEval or "check mtree" ;;
   logrus_Debugf ["ndiff"] "umoci: checked mtree spec" ;;
   reader <-? layer_GenerateLayer fullRootfsPath diffs (MapOptions meta)
     or "generate diff layer" ;;
   defer! reader_Close reader ;;
   imageMeta <-? mutator_Meta mutator or "get image metadata" ;;
   now <- time_Now ;;
   match history_overrides ctx (default_history imageMeta now) with
   | None => Ret Panicked
   | Some history =>
   err <- mutator_Add mutator reader history ;;
   match err with
   | Some err => fail (errors_Wrap err "add diff layer")
   | None =>
   newDescriptor <-? mutator_Commit mutator or "commit mutated image" ;;
   logrus_Infof ["mediatype"; "digest"; "size"] "created new image" ;;
   err <- engine_DeleteReference engine tagName ;;
   match err with
   | Some err => fail err
   | None =>
   err <- engine_PutReference engine tagName newDescriptor ;;
   match err with
   | Some err => fail err
   | None => Ret (Returned None)
   end end end end)%prog
  end end end.

End Repack.

(** The [Before] hook of the command: exactly one positional argument, not
    empty, which becomes the [bundle] entry of the metadata. *)
Definition Before (args : list string) (ctx : Metadata) : option Error * Metadata :=
  if negb (Nat.eqb (length args) 1)
  then (Some (New "invalid number of positional arguments: expected <bundle>"), ctx)
  else
    let first := match args with a :: _ => a | [] => "" end in
    if String.eqb first ""
    then (Some (New "bundle path cannot be empty"), ctx)
    else (None, <["bundle" := IString first]> ctx).

(** ** Running a program *)

(** One call together with the answer it got. *)
Inductive Event : Type :=
| Ev {A : Type} (c : Call A) (a : A).

(** A handler answers every call and moves its own state: it stands for
    the other packages, the filesystem and the store together.  Every call
    is taken to return, with a value or with an error. *)
Definition Handler (X : Type) : Type := forall A : Type, Call A -> X -> A * X.

Fixpoint run {X R : Type} (h : Handler X) (p : Prog R) (x : X)
  : R * X * list Event :=
  match p with
  | Ret r => (r, x, [])
  | Vis c k =>
      let '(a, x') := h _ c x in
      let '(r, x'', t) := run h (k a) x' in
      (r, x'', Ev c a :: t)
  end.

Definition outcome {X R : Type} (h : Handler X) (p : Prog R) (x : X) : R :=
  (run h p x).1.1.

Definition trace {X R : Type} (h : Handler X) (p : Prog R) (x : X) : list Event :=
  (run h p x).2.

(** [always p P]: [P] holds of the trace and the result of [p] whatever
    the calls answer. *)
Fixpoint always {R : Type} (p : Prog R) (P : list Event -> R -> Prop) : Prop :=
  match p with
  | Ret r => P [] r
  | Vis c k => forall a, always (k a) (fun t r => P (Ev c a :: t) r)
  end.

(** ** Observing a trace *)

Definition result_ok {A : Type} (r : result A) : bool :=
  match r with inl _ => false | inr _ => true end.

Definition error_ok (err : option Error) : bool :=
  match err with Some _ => false | None => true end.

(** Did the call answer without an error?  The logger and the clock have
    no error to give. *)
Definition call_ok {A : Type} (c : Call A) : A -> bool :=
  match c in Call A return A -> bool with
  | ReadBundleMeta _ => result_ok
  | cas_Open _ => result_ok
  | mutate_New _ _ => result_ok
  | os_Open _ => result_ok
  | mtree_ParseSpec _ => result_ok
  | mtree_Check _ _ _ _ => result_ok
  | layer_GenerateLayer _ _ _ => result_ok
  | mutator_Meta _ => result_ok
  | mutator_Commit _ => result_ok
  | mutator_Add _ _ _ => error_ok
  | engine_DeleteReference _ _ => error_ok
  | engine_PutReference _ _ _ => error_ok
  | engine_Close _ => error_ok
  | file_Close _ => error_ok
  | reader_Close _ => error_ok
  | logrus_Debugf _ _ => fun _ => true
  | logrus_Infof _ _ => fun _ => true
  | time_Now => fun _ => true
  end.

Definition ok (e : Event) : bool :=
  match e with Ev c a => call_ok c a end.

(** The calls that make up the pipeline, one name per call site. *)
Inductive Step : Type :=
| SReadBundleMeta | SOpen | SNew | SOpenMtree | SParseSpec | SCheck
| SGenerateLayer | SMeta | SAdd | SCommit | SDeleteReference | SPutReference.

Definition Step_eqb (a b : Step) : bool :=
  match a, b with
  | SReadBundleMeta, SReadBundleMeta | SOpen, SOpen | SNew, SNew
  | SOpenMtree, SOpenMtree | SParseSpec, SParseSpec | SCheck, SCheck
  | SGenerateLayer, SGenerateLayer | SMeta, SMeta | SAdd, SAdd
  | SCommit, SCommit | SDeleteReference, SDeleteReference
  | SPutReference, SPutReference => true
  | _, _ => false
  end.

Definition step_of_call {A : Type} (c : Call A) : option Step :=
  match c with
  | ReadBundleMeta _ => Some SReadBundleMeta
  | cas_Open _ => Some SOpen
  | mutate_New _ _ => Some SNew
  | os_Open _ => Some SOpenMtree
  | mtree_ParseSpec _ => Some SParseSpec
  | mtree_Check _ _ _ _ => Some SCheck
  | layer_GenerateLayer _ _ _ => Some SGenerateLayer
  | mutator_Meta _ => Some SMeta
  | mutator_Add _ _ _ => Some SAdd
  | mutator_Commit _ => Some SCommit
  | engine_DeleteReference _ _ => Some SDeleteReference
  | engine_PutReference _ _ _ => Some SPutReference
  | _ => None
  end.

Definition step_of (e : Event) : option Step :=
  match e with Ev c _ => step_of_call c end.

Definition is_step (e : Event) : bool :=
  match step_of e with Some _ => true | None => false end.

(** What an observer sees along a trace, in order. *)
Fixpoint observe {B : Type} (f : Event -> option B) (t : list Event) : list B :=
  match t with
  | [] => []
  | e :: t' =>
      match f e with
      | Some b => b :: observe f t'
      | None => observe f t'
      end
  end.

(** The pipeline calls of a trace, in the order they were made. *)
Definition steps (t : list Event) : list Step := observe step_of t.

Definition count_step (s : Step) (t : list Event) : nat :=
  length (List.filter (Step_eqb s) (steps t)).

Definition is_ref_call (e : Event) : bool :=
  match step_of e with
  | Some SDeleteReference | Some SPutReference => true
  | _ => false
  end.

(** The metadata a successful [ReadBundleMeta] gave. *)
Definition loaded_meta (e : Event) : option UmociMeta :=
  match e with
  | Ev c a =>
      match c in Call A return A -> option UmociMeta with
      | ReadBundleMeta _ => fun r => match r with inr meta => Some meta | inl _ => None end
      | _ => fun _ => None
      end a
  end.

(** The descriptor a successful [Commit] gave. *)
Definition committed (e : Event) : option ispec.Descriptor :=
  match e with
  | Ev c a =>
      match c in Call A return A -> option ispec.Descriptor with
      | mutator_Commit _ => fun r => match r with inr d => Some d | inl _ => None end
      | _ => fun _ => None
      end a
  end.

(** The first event of a trace on which an observer gives something. *)
Definition first_of {B : Type} (f : Event -> option B) (t : list Event) : option B :=
  head (observe f t).

(** The name of the file an [os.Open] was asked for. *)
Definition opened_file (e : Event) : option string :=
  match e with
  | Ev c _ =>
      match c with
      | os_Open name => Some name
      | _ => None
      end
  end.

(** The arguments of a tree comparison. *)
Definition check_args (e : Event)
  : option (string * mtree.DirectoryHierarchy * list mtree.Keyword * umoci.FsEval) :=
  match e with
  | Ev c _ =>
      match c with
      | mtree_Check root spec keywords fsEval => Some (root, spec, keywords, fsEval)
      | _ => None
      end
  end.

(** The differences a successful comparison gave. *)
Definition checked (e : Event) : option (list mtree.InodeDelta) :=
  match e with
  | Ev c a =>
      match c in Call A return A -> option (list mtree.InodeDelta) with
      | mtree_Check _ _ _ _ => fun r => match r with inr diffs => Some diffs | inl _ => None end
      | _ => fun _ => None
      end a
  end.

(** The differences handed to the layer generator. *)
Definition generated (e : Event) : option (list mtree.InodeDelta) :=
  match e with
  | Ev c _ =>
      match c with
      | layer_GenerateLayer _ diffs _ => Some diffs
      | _ => None
      end
  end.

(** The image metadata a successful [Mutator.Meta] gave. *)
Definition image_meta (e : Event) : option mutate.Meta :=
  match e with
  | Ev c a =>
      match c in Call A return A -> option mutate.Meta with
      | mutator_Meta _ => fun r => match r with inr m => Some m | inl _ => None end
      | _ => fun _ => None
      end a
  end.

(** The time the clock gave. *)
Definition clock (e : Event) : option Time :=
  match e with
  | Ev c a =>
      match c in Call A return A -> option Time with
      | time_Now => fun now => Some now
      | _ => fun _ => None
      end a
  end.

(** The history entry handed to [Mutator.Add]. *)
Definition added_history (e : Event) : option ispec.History :=
  match e with
  | Ev c _ =>
      match c with
      | mutator_Add _ _ history => Some history
      | _ => None
      end
  end.

(** The layer stream and history entry of an [Add] that succeeded. *)
Definition added (e : Event) : option (Reader * ispec.History) :=
  match e with
  | Ev c a =>
      match c in Call A return A -> option (Reader * ispec.History) with
      | mutator_Add _ reader history =>
          fun err => match err with None => Some (reader, history) | Some _ => None end
      | _ => fun _ => None
      end a
  end.

(** The two reference operations, with what they returned. *)
Inductive RefOp : Type :=
| OpDelete (engine : Engine) (name : string) (err : option Error)
| OpPut (engine : Engine) (name : string) (descriptor : ispec.Descriptor)
    (err : option Error).

Definition ref_op (e : Event) : option RefOp :=
  match e with
  | Ev c a =>
      match c in Call A return A -> option RefOp with
      | engine_DeleteReference engine name => fun err => Some (OpDelete engine name err)
      | engine_PutReference engine name d => fun err => Some (OpPut engine name d err)
      | _ => fun _ => None
      end a
  end.

(** Resources that have to be released. *)
Inductive Resource : Type :=
| REngine (engine : Engine)
| RFile (mfh : File)
| RReader (reader : Reader).

Definition Resource_eqb (a b : Resource) : bool :=
  match a, b with
  | REngine x, REngine y | RFile x, RFile y | RReader x, RReader y => Nat.eqb x y
  | _, _ => false
  end.

(** The resource a successful call handed out. *)
Definition opened (e : Event) : option Resource :=
  match e with
  | Ev c a =>
      match c in Call A return A -> option Resource with
      | cas_Open _ => fun r => match r with inr engine => Some (REngine engine) | inl _ => None end
      | os_Open _ => fun r => match r with inr mfh => Some (RFile mfh) | inl _ => None end
      | layer_GenerateLayer _ _ _ =>
          fun r => match r with inr reader => Some (RReader reader) | inl _ => None end
      | _ => fun _ => None
      end a
  end.

(** The resource a call releases. *)
Definition closed (e : Event) : option Resource :=
  match e with
  | Ev c _ =>
      match c with
      | engine_Close engine => Some (REngine engine)
      | file_Close mfh => Some (RFile mfh)
      | reader_Close reader => Some (RReader reader)
      | _ => None
      end
  end.

Definition closes (r : Resource) (e : Event) : bool :=
  match closed e with
  | Some r' => Resource_eqb r r'
  | None => false
  end.

(** Every resource handed out in the trace is released later in it. *)
Fixpoint released (t : list Event) : bool :=
  match t with
  | [] => true
  | e :: t' =>
      match opened e with
      | Some r => existsb (closes r) t'
      | None => true
      end && released t'
  end.

(** A pipeline call that failed is the last pipeline call of the trace. *)
Fixpoint sequenced (t : list Event) : bool :=
  match t with
  | [] => true
  | e :: t' =>
      (negb (is_step e) || ok e || negb (existsb is_step t')) && sequenced t'
  end.

Definition pipeline : list Step :=
  [SReadBundleMeta; SOpen; SNew; SOpenMtree; SParseSpec; SCheck;
   SGenerateLayer; SMeta; SAdd; SCommit; SDeleteReference; SPutReference].

(** The stages of the specification's state machine. *)
Inductive Stage : Type :=
| LoadMetadata | OpenStore | OpenMutator | LoadBaselineSnapshot | DetectChanges
| BuildLayer | MutatorAdd | MutatorCommit | SwapReference.

Definition Stage_eqb (a b : Stage) : bool :=
  match a, b with
  | LoadMetadata, LoadMetadata | OpenStore, OpenStore | OpenMutator, OpenMutator
  | LoadBaselineSnapshot, LoadBaselineSnapshot | DetectChanges, DetectChanges
  | BuildLayer, BuildLayer | MutatorAdd, MutatorAdd
  | MutatorCommit, MutatorCommit | SwapReference, SwapReference => true
  | _, _ => false
  end.

(** The stage a pipeline call belongs to: opening and parsing the mtree
    file load the snapshot, the two reference calls are the swap, and the
    query for the image metadata, which only feeds the history entry, is
    not a stage. *)
Definition stage_of_step (s : Step) : option Stage :=
  match s with
  | SReadBundleMeta => Some LoadMetadata
  | SOpen => Some OpenStore
  | SNew => Some OpenMutator
  | SOpenMtree | SParseSpec => Some LoadBaselineSnapshot
  | SCheck => Some DetectChanges
  | SGenerateLayer => Some BuildLayer
  | SMeta => None
  | SAdd => Some MutatorAdd
  | SCommit => Some MutatorCommit
  | SDeleteReference | SPutReference => Some SwapReference
  end.

(** Consecutive calls of one stage count as the stage once. *)
Fixpoint entered (l : list Stage) : list Stage :=
  match l with
  | [] => []
  | a :: l' =>
      match l' with
      | b :: _ => if Stage_eqb a b then entered l' else a :: entered l'
      | [] => [a]
      end
  end.

Definition stages (t : list Event) : list Stage :=
  entered (omap stage_of_step (steps t)).

Definition stage_machine : list Stage :=
  [LoadMetadata; OpenStore; OpenMutator; LoadBaselineSnapshot; DetectChanges;
   BuildLayer; MutatorAdd; MutatorCommit; SwapReference].

(** ** The tag references of the store *)

(** Modelled from the spec: the reference table of the CAS (the engine's
    code lies outside [repack.go]).  [getReference(name)] gives a descriptor
    or absence; a [deleteReference] that succeeds removes the name, a
    [putReference] that succeeds binds it to the descriptor; a call that
    returns an error, and every call that is not one of these two, leaves
    the table as it was. *)
Definition ref_effect (e : Event) (refs : gmap string ispec.Descriptor)
  : gmap string ispec.Descriptor :=
  match e with
  | Ev c a =>
      match c in Call A return A -> gmap string ispec.Descriptor with
      | engine_DeleteReference _ name =>
          fun err => match err with None => delete name refs | Some _ => refs end
      | engine_PutReference _ name descriptor =>
          fun err => match err with None => <[name := descriptor]> refs | Some _ => refs end
      | _ => fun _ => refs
      end a
  end.

Definition refs_after (t : list Event) (refs : gmap string ispec.Descriptor)
  : gmap string ispec.Descriptor :=
  fold_left (fun refs e => ref_effect e refs) t refs.

Definition getReference (refs : gmap string ispec.Descriptor) (name : string)
  : option ispec.Descriptor :=
  refs !! name.

(** The media-type validation that follows [ReadBundleMeta] rejects the
    metadata this event loaded; [manifestType] is the media type of an
    image manifest. *)
Definition rejects_media_type (manifestType : string) (e : Event) : bool :=
  match loaded_meta e with
  | Some meta => negb (String.eqb (ispec.MediaType (From meta)) manifestType)
  | None => false
  end.

(** A failure of a stage up to and including [Commit]. *)
Definition fails_before_swap (manifestType : string) (e : Event) : bool :=
  rejects_media_type manifestType e ||
  match step_of e with
  | Some SDeleteReference | Some SPutReference | None => false
  | Some _ => negb (ok e)
  end.

(** ** The blobs of the store and the image under mutation *)

(** Modelled from the spec: the blob side of the CAS as [repack] can reach
    it (the engine and the mutator lie outside [repack.go]).  Blobs are
    content-addressed and only ever added: a [Commit] that succeeds has
    written the manifest whose descriptor it returns, and none of the calls
    removes a blob.  Only the digests of the manifests matter here. *)
Definition blob_effect (e : Event) (blobs : gset string) : gset string :=
  match committed e with
  | Some d => {[ ispec.Digest d ]} ∪ blobs
  | None => blobs
  end.

Definition blobs_after (t : list Event) (blobs : gset string) : gset string :=
  fold_left (fun blobs e => blob_effect e blobs) t blobs.

(** The part of an image a mutation appends to: the layer descriptors of
    the manifest and the history of the config. *)
Record Image : Type := {
  layers : list ispec.Descriptor;
  history : list ispec.History
}.

(** Modelled from the spec: the Image Mutator.  An [Add] that succeeds
    appends the descriptor of the layer blob to the layer list and the
    history record to the history, in memory; an [Add] that fails appends
    nothing; no other call changes the image in memory.  [layer_of] is the
    descriptor the mutator computes for a layer stream. *)
Definition image_effect (layer_of : Reader -> ispec.Descriptor) (e : Event)
  (img : Image) : Image :=
  match added e with
  | Some (reader, h) =>
      {| layers := layers img ++ [layer_of reader];
         history := history img ++ [h] |}
  | None => img
  end.

Definition image_after (layer_of : Reader -> ispec.Descriptor) (t : list Event)
  (base : Image) : Image :=
  fold_left (fun img e => image_effect layer_of e img) t base.

(** The snapshot file name in the words of the specification: the digest
    with its colon replaced by an underscore, then the suffix. *)
Definition spec_snapshot_name (digest : string) : string :=
  strings.Replace digest ":" "_" 1 +:+ ".mtree".

(** The snapshot file name as [repack] computes it. *)
Definition snapshot_name (digest : string) : string :=
  strings.Replace digest "sha256:" "sha256_" 1 +:+ ".mtree".

(** "The field takes the value of its override key when that key is
    present in the metadata, and otherwise its default." *)
Definition takes_override (ctx : Metadata) (key : string) (field dflt : string) : Prop :=
  match ctx !! key with
  | Some v => v = IString field
  | None => field = dflt
  end.

(** Did a call of step [s] fail in the trace? *)
Definition failed (s : Step) (t : list Event) : bool :=
  existsb (fun e =>
             match step_of e with
             | Some s' => Step_eqb s s' && negb (ok e)
             | None => false
             end) t.

Definition panicked (out : Outcome) : bool :=
  match out with
  | Panicked => true
  | Returned _ => false
  end.

(** The error a call answered, if it did. *)
Definition call_error {A : Type} (c : Call A) : A -> option Error :=
  match c in Call A return A -> option Error with
  | ReadBundleMeta _ => fun r => match r with inl err => Some err | inr _ => None end
  | cas_Open _ => fun r => match r with inl err => Some err | inr _ => None end
  | mutate_New _ _ => fun r => match r with inl err => Some err | inr _ => None end
  | os_Open _ => fun r => match r with inl err => Some err | inr _ => None end
  | mtree_ParseSpec _ => fun r => match r with inl err => Some err | inr _ => None end
  | mtree_Check _ _ _ _ => fun r => match r with inl err => Some err | inr _ => None end
  | layer_GenerateLayer _ _ _ =>
      fun r => match r with inl err => Some err | inr _ => None end
  | mutator_Meta _ => fun r => match r with inl err => Some err | inr _ => None end
  | mutator_Commit _ => fun r => match r with inl err => Some err | inr _ => None end
  | mutator_Add _ _ _ => fun err => err
  | engine_DeleteReference _ _ => fun err => err
  | engine_PutReference _ _ _ => fun err => err
  | engine_Close _ => fun err => err
  | file_Close _ => fun err => err
  | reader_Close _ => fun err => err
  | logrus_Debugf _ _ => fun _ => None
  | logrus_Infof _ _ => fun _ => None
  | time_Now => fun _ => None
  end.

(** The pipeline call that failed, with its error. *)
Definition failure (e : Event) : option (Step * Error) :=
  match e with
  | Ev c a =>
      match step_of_call c, call_error c a with
      | Some s, Some err => Some (s, err)
      | _, _ => None
      end
  end.

(** The message [repack] wraps around the error of a pipeline call; the
    two reference calls have none in the source. *)
Definition stage_context (s : Step) : option string :=
  match s with
  | SReadBundleMeta => Some "read umoci.json metadata"
  | SOpen => Some "open CAS"
  | SNew => Some "create mutator for base image"
  | SOpenMtree => Some "open mtree"
  | SParseSpec => Some "parse mtree"
  | SCheck => Some "check mtree"
  | SGenerateLayer => Some "generate diff layer"
  | SMeta => Some "get image metadata"
  | SAdd => Some "add diff layer"
  | SCommit => Some "commit mutated image"
  | SDeleteReference | SPutReference => None
  end.

(** ** A scripted handler, to run [repack] on concrete inputs *)

(** What the other packages answer in one run: the values they give when
    they succeed, and the error with which a step fails, if it does. *)
Record Scenario : Type := {
  sc_meta : UmociMeta;
  sc_spec : mtree.DirectoryHierarchy;
  sc_diffs : list mtree.InodeDelta;
  sc_image_meta : mutate.Meta;
  sc_now : Time;
  sc_descriptor : ispec.Descriptor;
  sc_fail : Step -> option Error
}.

Definition answer_result {A : Type} (sc : Scenario) (s : Step) (a : A) : result A :=
  match sc_fail sc s with
  | Some err => inl err
  | None => inr a
  end.

(** The handles are fixed: engine 1, mutator 2, file 3, reader 4.  The
    state counts the calls answered. *)
Definition scripted (sc : Scenario) : Handler nat :=
  fun A c n =>
    (match c in Call A return A with
     | ReadBundleMeta _ => answer_result sc SReadBundleMeta (sc_meta sc)
     | cas_Open _ => answer_result sc SOpen 1
     | mutate_New _ _ => answer_result sc SNew 2
     | os_Open _ => answer_result sc SOpenMtree 3
     | mtree_ParseSpec _ => answer_result sc SParseSpec (sc_spec sc)
     | mtree_Check _ _ _ _ => answer_result sc SCheck (sc_diffs sc)
     | layer_GenerateLayer _ _ _ => answer_result sc SGenerateLayer 4
     | mutator_Meta _ => answer_result sc SMeta (sc_image_meta sc)
     | mutator_Commit _ => answer_result sc SCommit (sc_descriptor sc)
     | mutator_Add _ _ _ => sc_fail sc SAdd
     | engine_DeleteReference _ _ => sc_fail sc SDeleteReference
     | engine_PutReference _ _ _ => sc_fail sc SPutReference
     | engine_Close _ => None
     | file_Close _ => None
     | reader_Close _ => None
     | logrus_Debugf _ _ => tt
     | logrus_Infof _ _ => tt
     | time_Now => sc_now sc
     end, S n).

Definition no_failure : Step -> option Error := fun _ => None.

Definition fail_at (s : Step) (err : Error) : Step -> option Error :=
  fun s' => if Step_eqb s s' then Some err else None.

Definition sample_manifest_type : string :=
  "application/vnd.oci.image.manifest.v1+json".

Definition sample_descriptor (mediaType digest : string) : ispec.Descriptor :=
  {| ispec.MediaType := mediaType; ispec.Digest := digest; ispec.Size := 348%Z |}.

Definition sample_meta (mediaType digest : string) (rootless : bool) : UmociMeta :=
  {| Version := "1";
     From := sample_descriptor mediaType digest;
     MapOptions := {| layer.UIDMappings := []; layer.GIDMappings := [];
                      layer.Rootless := rootless |} |}.

Definition sample_scenario (meta : UmociMeta) (diffs : list mtree.InodeDelta)
  (failing : Step -> option Error) : Scenario :=
  {| sc_meta := meta;
     sc_spec := ["/set type=file"; "etc/hostname size=5"];
     sc_diffs := diffs;
     sc_image_meta := {| mutate.Author := "base author" |};
     sc_now := 1500000000%Z;
     sc_descriptor := sample_descriptor sample_manifest_type "sha256:feed";
     sc_fail := failing |}.

(** The metadata the command line leaves for [repack]: image path, tag and
    bundle, and no history override. *)
Definition sample_ctx : Metadata :=
  <["--image-path" := IString "image"]>
    (<["--image-tag" := IString "latest"]>
       (<["bundle" := IString "bundle"]> ∅)).

Definition sample_keywords : list mtree.Keyword :=
  ["size"; "type"; "uid"; "gid"; "mode"; "link"; "nlink"; "sha256digest"].

(** A stand-in for [Time.Format] that knows one instant. *)
Definition sample_format (now : Time) (layout : string) : string :=
  if Z.eqb now 1500000000 then "2017-07-14T02:40:00Z" else layout.

(** [repack] with sample values for the package-level names. *)
Definition sample_repack (ctx : Metadata) : Prog Outcome :=
  repack sample_manifest_type sample_keywords "rootfs"
    "2006-01-02T15:04:05Z07:00" sample_format ctx.

Definition good_meta : UmociMeta :=
  sample_meta sample_manifest_type "sha256:0123abcd" false.

(** ** Sample scenarios *)

(** The sample run of a scenario. *)
Definition run_trace (sc : Scenario) (ctx : Metadata) : list Event :=
  trace (scripted sc) (sample_repack ctx) 0.

Definition run_outcome (sc : Scenario) (ctx : Metadata) : Outcome :=
  outcome (scripted sc) (sample_repack ctx) 0.

Definition all_succeed : Scenario := sample_scenario good_meta [] no_failure.

Definition commit_fails : Scenario :=
  sample_scenario good_meta [] (fail_at SCommit (New "disk full")).

Definition delete_fails : Scenario :=
  sample_scenario good_meta [] (fail_at SDeleteReference (New "reference is locked")).

Definition put_fails : Scenario :=
  sample_scenario good_meta [] (fail_at SPutReference (New "reference is locked")).

Definition manifest_list : UmociMeta :=
  sample_meta "application/vnd.oci.image.manifest.list.v1+json" "sha256:0123abcd" false.

Definition from_manifest_list : Scenario := sample_scenario manifest_list [] no_failure.

Definition rootless_meta : UmociMeta :=
  sample_meta sample_manifest_type "sha256:0123abcd" true.

Definition rootless : Scenario := sample_scenario rootless_meta [] no_failure.

Definition sha512_meta : UmociMeta :=
  sample_meta sample_manifest_type "sha512:cafe" false.

Definition sha512_base : Scenario := sample_scenario sha512_meta [] no_failure.

(** The tag already points at an image. *)
Definition sample_refs : gmap string ispec.Descriptor :=
  {[ "latest" := sample_descriptor sample_manifest_type "sha256:0123abcd" ]}.

(** The command line gave an author and a comment for the history. *)
Definition ctx_with_history : Metadata :=
  <["--history.author" := IString "jane"]>
    (<["--history.comment" := IString "nightly"]> sample_ctx).

(** A history override that is not a string. *)
Definition ctx_bad_author : Metadata :=
  <["--history.author" := IBool true]> sample_ctx.

(** The entry of the run with an author and a comment on the command
    line: these two are taken, the other two keep their defaults. *)
Definition sample_entry : ispec.History :=
  {| ispec.Created := "2017-07-14T02:40:00Z";
     ispec.CreatedBy := "umoci config";
     ispec.Author := "jane";
     ispec.Comment := "nightly";
     ispec.EmptyLayer := false |}.

(** ** Further observers: the arguments and the handles of the calls *)

(** The bundle path a [ReadBundleMeta] was asked for. *)
Definition bundle_read (e : Event) : option string :=
  match e with
  | Ev c _ =>
      match c with
      | ReadBundleMeta bundle => Some bundle
      | _ => None
      end
  end.

(** The image path a [cas.Open] was asked for. *)
Definition store_opened (e : Event) : option string :=
  match e with
  | Ev c _ =>
      match c with
      | cas_Open imagePath => Some imagePath
      | _ => None
      end
  end.

(** The descriptor a mutator was asked for. *)
Definition mutator_base (e : Event) : option ispec.Descriptor :=
  match e with
  | Ev c _ =>
      match c with
      | mutate_New _ from => Some from
      | _ => None
      end
  end.

(** The manifest a successful [ParseSpec] gave. *)
Definition parsed (e : Event) : option mtree.DirectoryHierarchy :=
  match e with
  | Ev c a =>
      match c in Call A return A -> option mtree.DirectoryHierarchy with
      | mtree_ParseSpec _ => fun r => match r with inr spec => Some spec | inl _ => None end
      | _ => fun _ => None
      end a
  end.

(** The arguments of a layer generation. *)
Definition generate_args (e : Event)
  : option (string * list mtree.InodeDelta * layer.MapOptions) :=
  match e with
  | Ev c _ =>
      match c with
      | layer_GenerateLayer root diffs opt => Some (root, diffs, opt)
      | _ => None
      end
  end.

(** The engine a successful [cas.Open] gave, and the engine a call is made
    on. *)
Definition engine_opened (e : Event) : option Engine :=
  match e with
  | Ev c a =>
      match c in Call A return A -> option Engine with
      | cas_Open _ => fun r => match r with inr engine => Some engine | inl _ => None end
      | _ => fun _ => None
      end a
  end.

Definition engine_used (e : Event) : option Engine :=
  match e with
  | Ev c _ =>
      match c with
      | mutate_New engine _ => Some engine
      | engine_Close engine => Some engine
      | engine_DeleteReference engine _ => Some engine
      | engine_PutReference engine _ _ => Some engine
      | _ => None
      end
  end.

(** The mutator a successful [mutate.New] gave, and the mutator a call is
    made on. *)
Definition mutator_made (e : Event) : option Mutator :=
  match e with
  | Ev c a =>
      match c in Call A return A -> option Mutator with
      | mutate_New _ _ => fun r => match r with inr m => Some m | inl _ => None end
      | _ => fun _ => None
      end a
  end.

Definition mutator_used (e : Event) : option Mutator :=
  match e with
  | Ev c _ =>
      match c with
      | mutator_Meta m => Some m
      | mutator_Add m _ _ => Some m
      | mutator_Commit m => Some m
      | _ => None
      end
  end.

(** The file a successful [os.Open] gave, and the file a call reads or
    closes. *)
Definition file_opened (e : Event) : option File :=
  match e with
  | Ev c a =>
      match c in Call A return A -> option File with
      | os_Open _ => fun r => match r with inr mfh => Some mfh | inl _ => None end
      | _ => fun _ => None
      end a
  end.

Definition file_used (e : Event) : option File :=
  match e with
  | Ev c _ =>
      match c with
      | mtree_ParseSpec mfh => Some mfh
      | file_Close mfh => Some mfh
      | _ => None
      end
  end.

(** The reader a successful [GenerateLayer] gave, and the reader a call
    consumes or closes. *)
Definition reader_made (e : Event) : option Reader :=
  match e with
  | Ev c a =>
      match c in Call A return A -> option Reader with
      | layer_GenerateLayer _ _ _ =>
          fun r => match r with inr reader => Some reader | inl _ => None end
      | _ => fun _ => None
      end a
  end.

Definition reader_used (e : Event) : option Reader :=
  match e with
  | Ev c _ =>
      match c with
      | mutator_Add _ reader _ => Some reader
      | reader_Close reader => Some reader
      | _ => None
      end
  end.

(** The name a reference call is made on. *)
Definition ref_name (op : RefOp) : string :=
  match op with
  | OpDelete _ name _ => name
  | OpPut _ name _ _ => name
  end.

(** The keys of the history overrides, in the order [repack] reads them. *)
Definition history_keys : list string :=
  ["--history.author"; "--history.comment"; "--history.created";
   "--history.created_by"].

(** A key that is present and does not hold a string: the value on which
    the assertion [val.(string)] panics. *)
Definition not_a_string (v : option Iface) : bool :=
  match v with
  | None => false
  | Some (IString _) => false
  | Some _ => true
  end.

Definition bad_override (ctx : Metadata) : bool :=
  existsb (fun key => not_a_string (ctx !! key)) history_keys.

(** [strings.Contains(s, old)]: [old] occurs somewhere in [s]. *)
Fixpoint contains (old s : string) : bool :=
  String.prefix old s ||
  match s with
  | EmptyString => false
  | String _ s' => contains old s'
  end.

(** The metadata before the [Before] hook ran: image path and tag, no
    bundle yet. *)
Definition ctx_before : Metadata :=
  <["--image-path" := IString "image"]>
    (<["--image-tag" := IString "latest"]> ∅).

(** * Properties of [repack] *)

(** The standard library models on some inputs. *)
Example Replace_sha256 :
  strings.Replace "sha256:0123abcd" "sha256:" "sha256_" 1 = "sha256_0123abcd".
Proof. reflexivity. Qed.

Example Replace_once :
  strings.Replace "a:b:c" ":" "_" 1 = "a_b:c".
Proof. reflexivity. Qed.

Example Join_plain : filepath.Join ["/tmp/bundle"; "rootfs"] = "/tmp/bundle/rootfs".
Proof. reflexivity. Qed.

Example Join_cleans : filepath.Join ["bundle/"; "./a/../x.mtree"] = "bundle/x.mtree".
Proof. reflexivity. Qed.

Example Join_dotdot : filepath.Join ["b"; "../../x"] = "../x".
Proof. reflexivity. Qed.

Lemma run_always {X R : Type} (h : Handler X) (p : Prog R) :
  forall (P : list Event -> R -> Prop) (x : X),
    always p P -> P (trace h p x) (outcome h p x).
Proof.
  unfold trace, outcome.
  induction p as [r | A c k IH]; intros P x Hp; simpl in *.
  - exact Hp.
  - destruct (h A c x) as [a x'].
    specialize (IH a _ x' (Hp a)).
    destruct (run h (k a) x') as [[r x''] t]. exact IH.
Qed.

Lemma Before_sets_bundle (args : list string) (ctx ctx' : Metadata) :
  Before args ctx = (None, ctx') ->
  exists bundle,
    args = [bundle] /\ bundle <> "" /\ assert_string (ctx' !! "bundle") = Some bundle.
Proof.
  unfold Before.
  destruct args as [| a [| b args]]; simpl; try (intros H; discriminate H).
  destruct (String.eqb a "") eqn:E; intros H; [discriminate H |].
  injection H as <-. exists a. split; [reflexivity | split].
  - apply String.eqb_neq, E.
  - rewrite lookup_insert_eq. reflexivity.
Qed.

(** The sample run. *)
Example sample_run_steps :
  steps (trace (scripted (sample_scenario good_meta [] no_failure))
           (sample_repack sample_ctx) 0)
  = [SReadBundleMeta; SOpen; SNew; SOpenMtree; SParseSpec; SCheck;
     SGenerateLayer; SMeta; SAdd; SCommit; SDeleteReference; SPutReference].
Proof. vm_compute. reflexivity. Qed.

Example sample_run_outcome :
  outcome (scripted (sample_scenario good_meta [] no_failure))
    (sample_repack sample_ctx) 0 = Returned None.
Proof. vm_compute. reflexivity. Qed.

Example sample_run_commit_fails :
  outcome (scripted (sample_scenario good_meta [] (fail_at SCommit (New "disk full"))))
    (sample_repack sample_ctx) 0
  = Returned (Some (Wrap (New "disk full") "commit mutated image")).
Proof. vm_compute. reflexivity. Qed.

#[local] Arguments strings.Replace : simpl never.
#[local] Arguments filepath.Join : simpl never.
#[local] Arguments String.eqb : simpl never.

(** Turn a goal about the trace and the outcome of a run into one about
    every path through the program. *)
Ltac all_paths :=
  match goal with
  | |- context [@trace ?X ?R ?h ?p ?x] =>
      pattern (@trace X R h p x), (@outcome X R h p x);
      lazymatch goal with
      | |- ?P _ _ => refine (run_always h p P x _)
      end
  end.

(** Follow [repack] statement by statement, splitting on what each call
    answers and on each value the control flow inspects. *)
Ltac exec_step :=
  match goal with
  | |- context [match assert_string ?v with _ => _ end] =>
      destruct (assert_string v) eqn:?
  | |- context [match history_overrides ?a ?b with _ => _ end] =>
      destruct (history_overrides a b) eqn:?
  | |- context [if negb (String.eqb ?a ?b) then _ else _] =>
      destruct (String.eqb a b) eqn:?
  | |- context [match ?v with _ => _ end] => is_var v; destruct v
  | |- forall a : ?T, _ =>
      lazymatch type of T with
      | Prop => fail
      | _ => intros ?
      end
  end; simpl.

Ltac exec := unfold repack; simpl; repeat exec_step.

(** The outcome of the media-type test, once it is known. *)
Ltac media_type :=
  unfold fails_before_swap, rejects_media_type; simpl;
  try match goal with
      | H : String.eqb _ _ = _ |- _ => rewrite H
      end; simpl.

Lemma override_takes (ctx : Metadata) (key dflt field : string) :
  override ctx key dflt = Some field -> takes_override ctx key field dflt.
Proof.
  unfold override, takes_override.
  destruct (ctx !! key) as [v|]; simpl.
  - destruct v; intros H; inversion H; reflexivity.
  - intros H; inversion H; reflexivity.
Qed.

Lemma Replace_sha256_prefix (hex : string) :
  strings.Replace ("sha256:" +:+ hex) "sha256:" "sha256_" 1 = "sha256_" +:+ hex.
Proof.
  unfold strings.Replace. cbn.
  destruct hex; reflexivity.
Qed.

(** A blob is never removed, and a manifest a [Commit] returned is among
    the blobs from then on. *)
Lemma blobs_after_keeps (t : list Event) :
  forall (blobs : gset string) (digest : string),
    digest ∈ blobs -> digest ∈ blobs_after t blobs.
Proof.
  unfold blobs_after.
  induction t as [| e t IH]; intros blobs digest Hin; simpl.
  - exact Hin.
  - apply IH. unfold blob_effect. destruct (committed e); set_solver.
Qed.

Lemma committed_blob_stays (t : list Event) :
  forall (blobs : gset string) (d : ispec.Descriptor),
    first_of committed t = Some d -> ispec.Digest d ∈ blobs_after t blobs.
Proof.
  unfold first_of.
  induction t as [| e t IH]; intros blobs d H; simpl in H.
  - discriminate H.
  - destruct (committed e) as [d' |] eqn:E; simpl in H.
    + injection H as ->.
      change (blobs_after (e :: t) blobs) with (blobs_after t (blob_effect e blobs)).
      apply blobs_after_keeps. unfold blob_effect. rewrite E. set_solver.
    + change (blobs_after (e :: t) blobs) with (blobs_after t (blob_effect e blobs)).
      apply IH, H.
Qed.

Lemma spec_snapshot_name_sha256 (hex : string) :
  spec_snapshot_name ("sha256:" +:+ hex) = snapshot_name ("sha256:" +:+ hex).
Proof.
  unfold spec_snapshot_name, snapshot_name, strings.Replace. cbn.
  destruct hex; reflexivity.
Qed.

Lemma history_overrides_takes (ctx : Metadata) (h0 h : ispec.History) :
  history_overrides ctx h0 = Some h ->
  takes_override ctx "--history.author" (ispec.Author h) (ispec.Author h0) /\
  takes_override ctx "--history.comment" (ispec.Comment h) (ispec.Comment h0) /\
  takes_override ctx "--history.created" (ispec.Created h) (ispec.Created h0) /\
  takes_override ctx "--history.created_by" (ispec.CreatedBy h) (ispec.CreatedBy h0) /\
  ispec.EmptyLayer h = ispec.EmptyLayer h0.
Proof.
  unfold history_overrides.
  destruct (override ctx "--history.author" _) as [author |] eqn:Ea;
    [| intros H; discriminate H].
  destruct (override ctx "--history.comment" _) as [comment |] eqn:Ec;
    [| intros H; discriminate H].
  destruct (override ctx "--history.created" _) as [created |] eqn:Et;
    [| intros H; discriminate H].
  destruct (override ctx "--history.created_by" _) as [created_by |] eqn:Eb;
    [| intros H; discriminate H].
  simpl. intros H. injection H as <-. simpl.
  repeat split; apply override_takes; assumption.
Qed.

Section Properties.

Variable ispec_MediaTypeImageManifest : string.
Variable MtreeKeywords : list mtree.Keyword.
Variable layer_RootfsName : string.
Variable igen_ISO8601 : string.
Variable time_Format : Time -> string -> string.

#[local] Abbreviation repack_ :=
  (repack ispec_MediaTypeImageManifest MtreeKeywords layer_RootfsName
     igen_ISO8601 time_Format).

(** C1: when a stage up to and including [Commit] fails (bundle metadata,
    media-type validation, opening the CAS, creating the mutator, opening
    or parsing the mtree file, the comparison, the layer generation, the
    image metadata, [Add] or [Commit]), [repack] returns an error, the trace
    has no call of [DeleteReference] or [PutReference], and every tag reads
    through [getReference] as it did before the run. *)
Theorem repack_failure_keeps_reference :
  forall (X : Type) (h : Handler X) (x : X) (ctx : Metadata)
         (refs : gmap string ispec.Descriptor),
    existsb (fails_before_swap ispec_MediaTypeImageManifest)
      (trace h (repack_ ctx) x) = true ->
    (exists err, outcome h (repack_ ctx) x = Returned (Some err)) /\
    existsb is_ref_call (trace h (repack_ ctx) x) = false /\
    (forall tag,
        getReference (refs_after (trace h (repack_ ctx) x) refs) tag
        = getReference refs tag).
Proof.
  intros X h x ctx refs. all_paths. exec.
  all: media_type.
  all: try (intros H; discriminate H).
  all: intros _; split; [eauto | split; [reflexivity | intros; reflexivity]].
Qed.

(** C2: when the descriptor saved in the bundle metadata has a media type
    other than that of an image manifest, [repack] returns the
    "invalid saved from descriptor" error and [ReadBundleMeta] is the only
    pipeline call of the run: the CAS is not opened, no mutator is created,
    nothing is added or committed and no reference is touched. *)
Theorem repack_rejects_other_media_types :
  forall (X : Type) (h : Handler X) (x : X) (ctx : Metadata) (meta : UmociMeta),
    first_of loaded_meta (trace h (repack_ ctx) x) = Some meta ->
    ispec.MediaType (From meta) <> ispec_MediaTypeImageManifest ->
    outcome h (repack_ ctx) x
    = Returned (Some (Wrap (New ("descriptor does not point to ispec.MediaTypeImageManifest: not implemented: "
                                 +:+ ispec.MediaType (From meta)))
                           "invalid saved from descriptor")) /\
    steps (trace h (repack_ ctx) x) = [SReadBundleMeta] /\
    (forall refs, refs_after (trace h (repack_ ctx) x) refs = refs) /\
    (forall blobs, blobs_after (trace h (repack_ ctx) x) blobs = blobs).
Proof.
  intros X h x ctx meta. all_paths. exec.
  all: unfold first_of; simpl.
  all: try (intros H; discriminate H).
  all: intros H Hne; injection H as ->.
  all: try match goal with
           | E : String.eqb _ _ = true |- _ => apply String.eqb_eq in E; contradiction
           end.
  repeat split.
Qed.

(** C3: the pipeline calls of every run are an initial part of
    [ReadBundleMeta], [cas.Open], [mutate.New], [os.Open], [ParseSpec],
    [Check], [GenerateLayer], [Meta], [Add], [Commit], [DeleteReference],
    [PutReference], each made at most once, and a call that failed is the
    last of them; when [repack] returns nil the calls are the whole list,
    every one of them succeeded, and the stages of the state machine were
    entered once each, in its order, the reference swap last. *)
Theorem repack_stage_order :
  forall (X : Type) (h : Handler X) (x : X) (ctx : Metadata),
    steps (trace h (repack_ ctx) x)
    = take (length (steps (trace h (repack_ ctx) x))) pipeline /\
    sequenced (trace h (repack_ ctx) x) = true /\
    (outcome h (repack_ ctx) x = Returned None ->
     steps (trace h (repack_ ctx) x) = pipeline /\
     stages (trace h (repack_ ctx) x) = stage_machine /\
     forallb (fun e => negb (is_step e) || ok e) (trace h (repack_ ctx) x) = true).
Proof.
  intros X h x ctx. all_paths. exec.
  all: split; [reflexivity | split; [reflexivity |]].
  all: try (intros H; discriminate H).
  all: intros _; repeat split.
Qed.

(** C4: once [Commit] has returned a descriptor, the reference calls of the
    run are [DeleteReference] on the tag and then, only when that returned
    no error, [PutReference] of the tag to that descriptor.  When the
    delete fails its error is returned and nothing is put.  When the delete
    succeeded and the put fails, the tag is absent afterwards; when both
    succeed the tag is bound to the new descriptor.  In every case the
    committed manifest stays among the blobs of the store. *)
Theorem repack_swaps_reference_in_two_steps :
  forall (X : Type) (h : Handler X) (x : X) (ctx : Metadata) (d : ispec.Descriptor),
    first_of committed (trace h (repack_ ctx) x) = Some d ->
    (exists (engine : Engine) (tagName : string),
        assert_string (ctx !! "--image-tag") = Some tagName /\
        ((exists err,
             observe ref_op (trace h (repack_ ctx) x)
             = [OpDelete engine tagName (Some err)] /\
             outcome h (repack_ ctx) x = Returned (Some err))
         \/
         (exists res,
             observe ref_op (trace h (repack_ ctx) x)
             = [OpDelete engine tagName None; OpPut engine tagName d res] /\
             outcome h (repack_ ctx) x = Returned res /\
             forall refs,
               getReference (refs_after (trace h (repack_ ctx) x) refs) tagName
               = match res with None => Some d | Some _ => None end))) /\
    (forall blobs, ispec.Digest d ∈ blobs_after (trace h (repack_ ctx) x) blobs).
Proof.
  intros X h x ctx d H. split.
  2: { intros blobs. apply committed_blob_stays, H. }
  revert H. all_paths. exec.
  all: unfold first_of; simpl.
  all: try (intros H; discriminate H).
  all: intros H; injection H as ->.
  all: do 2 eexists; split; [reflexivity |].
  - left. eexists; split; reflexivity.
  - right. eexists; split; [reflexivity | split; [reflexivity |]].
    intros refs. unfold getReference. apply lookup_delete_eq.
  - right. exists None; split; [reflexivity | split; [reflexivity |]].
    intros refs. unfold getReference. apply lookup_insert_eq.
Qed.

(** C5 (amended): the file [repack] opens for the snapshot is
    [filepath.Join(bundle, name + ".mtree")], where [name] is the digest of
    the base descriptor with its first occurrence of the text [sha256:]
    replaced by [sha256_]; for a digest [sha256:<hex>] this is the file
    [sha256_<hex>.mtree] joined to the bundle path, the name the
    specification describes.  No other file is opened. *)
Theorem repack_snapshot_path :
  forall (X : Type) (h : Handler X) (x : X) (ctx : Metadata) (meta : UmociMeta)
         (name : string),
    first_of loaded_meta (trace h (repack_ ctx) x) = Some meta ->
    In name (observe opened_file (trace h (repack_ ctx) x)) ->
    exists bundlePath,
      assert_string (ctx !! "bundle") = Some bundlePath /\
      observe opened_file (trace h (repack_ ctx) x) = [name] /\
      name = filepath.Join [bundlePath; snapshot_name (ispec.Digest (From meta))] /\
      (forall hex,
          ispec.Digest (From meta) = "sha256:" +:+ hex ->
          name = filepath.Join [bundlePath; ("sha256_" +:+ hex) +:+ ".mtree"] /\
          name = filepath.Join [bundlePath; spec_snapshot_name (ispec.Digest (From meta))]).
Proof.
  intros X h x ctx meta name. all_paths. exec.
  all: unfold first_of; simpl.
  all: try (intros H; discriminate H).
  all: try solve [intros _ []].
  all: intros H [<- | []]; injection H as ->.
  all: eexists; split; [reflexivity | split; [reflexivity | split; [reflexivity |]]].
  all: intros hex Hd; rewrite Hd, spec_snapshot_name_sha256; unfold snapshot_name.
  all: rewrite Replace_sha256_prefix; split; reflexivity.
Qed.

(** C6: the evaluator handed to the tree comparison depends on the rootless
    flag of the bundle metadata alone, the rootless evaluator when the flag
    is set and the default evaluator when it is not, and the keyword list
    handed to it is [MtreeKeywords] in both cases. *)
Theorem repack_selects_evaluator :
  forall (X : Type) (h : Handler X) (x : X) (ctx : Metadata) (meta : UmociMeta)
         (root : string) (spec : mtree.DirectoryHierarchy)
         (keywords : list mtree.Keyword) (fsEval : umoci.FsEval),
    first_of loaded_meta (trace h (repack_ ctx) x) = Some meta ->
    In (root, spec, keywords, fsEval) (observe check_args (trace h (repack_ ctx) x)) ->
    keywords = MtreeKeywords /\
    fsEval = (if layer.Rootless (MapOptions meta)
              then umoci.RootlessFsEval else umoci.DefaultFsEval).
Proof.
  intros X h x ctx meta root spec keywords fsEval. all_paths. exec.
  all: unfold first_of; simpl.
  all: try (intros H; discriminate H).
  all: try solve [intros _ []].
  all: intros H [E | []]; injection H as ->; injection E as <- <- <- <-.
  all: split; reflexivity.
Qed.

(** C7: the history entry handed to [Mutator.Add] has each of author,
    comment, created and created-by equal to the value of its
    [--history.*] key when the metadata has that key, and to its default
    otherwise: the author of the image metadata, the empty string, the
    current time in the ISO 8601 layout, and the text [umoci config].  Its
    empty-layer flag is false. *)
Theorem repack_history_entry :
  forall (X : Type) (h : Handler X) (x : X) (ctx : Metadata) (entry : ispec.History),
    In entry (observe added_history (trace h (repack_ ctx) x)) ->
    exists (imageMeta : mutate.Meta) (now : Time),
      first_of image_meta (trace h (repack_ ctx) x) = Some imageMeta /\
      first_of clock (trace h (repack_ ctx) x) = Some now /\
      takes_override ctx "--history.author" (ispec.Author entry)
        (mutate.Author imageMeta) /\
      takes_override ctx "--history.comment" (ispec.Comment entry) "" /\
      takes_override ctx "--history.created" (ispec.Created entry)
        (time_Format now igen_ISO8601) /\
      takes_override ctx "--history.created_by" (ispec.CreatedBy entry)
        "umoci config" /\
      ispec.EmptyLayer entry = false.
Proof.
  intros X h x ctx entry. all_paths. exec.
  all: try solve [intros []].
  all: intros [<- | []].
  all: match goal with
       | E : history_overrides _ _ = Some _ |- _ =>
           apply history_overrides_takes in E; simpl in E;
           destruct E as (Ha & Hc & Ht & Hb & He)
       end.
  all: do 2 eexists; split; [reflexivity | split; [reflexivity |]]; auto 10.
Qed.

(** C9: whatever differences the comparison returns, the empty list
    included, they are handed to the layer generator, which is called
    exactly once.  [Add] is then called exactly once unless the layer
    generation or the image metadata failed or a history override made
    [repack] panic, and [Commit] exactly once unless, in addition, [Add]
    failed: the differences never decide.  When [repack] returns nil each
    of the three was called once, and the image in the mutator has gained
    one layer descriptor and one history entry, not marked empty. *)
Theorem repack_appends_for_every_diff :
  forall (X : Type) (h : Handler X) (x : X) (ctx : Metadata)
         (diffs : list mtree.InodeDelta),
    first_of checked (trace h (repack_ ctx) x) = Some diffs ->
    observe generated (trace h (repack_ ctx) x) = [diffs] /\
    count_step SGenerateLayer (trace h (repack_ ctx) x) = 1 /\
    count_step SAdd (trace h (repack_ ctx) x)
    = (if failed SGenerateLayer (trace h (repack_ ctx) x)
          || failed SMeta (trace h (repack_ ctx) x)
          || panicked (outcome h (repack_ ctx) x)
       then 0 else 1) /\
    count_step SCommit (trace h (repack_ ctx) x)
    = (if failed SGenerateLayer (trace h (repack_ ctx) x)
          || failed SMeta (trace h (repack_ ctx) x)
          || panicked (outcome h (repack_ ctx) x)
          || failed SAdd (trace h (repack_ ctx) x)
       then 0 else 1) /\
    (outcome h (repack_ ctx) x = Returned None ->
     count_step SAdd (trace h (repack_ ctx) x) = 1 /\
     count_step SCommit (trace h (repack_ ctx) x) = 1 /\
     forall (layer_of : Reader -> ispec.Descriptor) (base : Image),
     exists (reader : Reader) (entry : ispec.History),
       observe added (trace h (repack_ ctx) x) = [(reader, entry)] /\
       ispec.EmptyLayer entry = false /\
       image_after layer_of (trace h (repack_ ctx) x) base
       = {| layers := layers base ++ [layer_of reader];
            history := history base ++ [entry] |}).
Proof.
  intros X h x ctx diffs. all_paths. exec.
  all: unfold first_of; simpl.
  all: try (intros H; discriminate H).
  all: intros H; injection H as ->.
  all: split; [reflexivity | split; [reflexivity | split; [reflexivity |]]].
  all: split; [reflexivity |].
  all: try (intros H; discriminate H).
  intros _. split; [reflexivity | split; [reflexivity |]].
  intros layer_of base. do 2 eexists. split; [reflexivity |].
  split; [| reflexivity].
  match goal with
  | E : history_overrides _ _ = Some _ |- _ =>
      apply history_overrides_takes in E; simpl in E; apply E
  end.
Qed.

(** C10: in every run, also one that ends in an error or a panic, each
    resource handed out (the engine of [cas.Open], the file of [os.Open],
    the reader of [GenerateLayer]) is closed later in the run, exactly once
    and in the reverse order of the opening. *)
Theorem repack_releases_resources :
  forall (X : Type) (h : Handler X) (x : X) (ctx : Metadata),
    released (trace h (repack_ ctx) x) = true /\
    observe closed (trace h (repack_ ctx) x)
    = rev (observe opened (trace h (repack_ ctx) x)).
Proof.
  intros X h x ctx. all_paths. exec.
  all: unfold closes; simpl; rewrite ?Nat.eqb_refl; simpl.
  all: split; reflexivity.
Qed.

(** X5: no tag is touched unless [Commit] succeeded: a run without a
    successful [Commit], be it an error return or a panic, has no reference
    call and leaves the reference table as it was. *)
Lemma repack_no_swap_without_commit :
  forall (X : Type) (h : Handler X) (x : X) (ctx : Metadata)
         (refs : gmap string ispec.Descriptor),
    first_of committed (trace h (repack_ ctx) x) = None ->
    observe ref_op (trace h (repack_ ctx) x) = [] /\
    refs_after (trace h (repack_ ctx) x) refs = refs.
Proof.
  intros X h x ctx refs. all_paths. exec.
  all: unfold first_of; simpl.
  all: try (intros H; discriminate H).
  all: intros _; split; reflexivity.
Qed.

(** X4: how errors travel: the error of a failing pipeline call is what
    [repack] returns, inside the context message of its stage for the calls
    up to [Commit], and as it is for the two reference calls.  A failing
    call is the only failing pipeline call of the run. *)
Lemma repack_error_contexts :
  forall (X : Type) (h : Handler X) (x : X) (ctx : Metadata) (s : Step) (err : Error),
    In (s, err) (observe failure (trace h (repack_ ctx) x)) ->
    observe failure (trace h (repack_ ctx) x) = [(s, err)] /\
    outcome h (repack_ ctx) x
    = Returned (Some (match stage_context s with
                      | Some msg => Wrap err msg
                      | None => err
                      end)).
Proof.
  intros X h x ctx s err. all_paths. exec.
  all: try solve [intros []].
  all: intros [E | []]; injection E as <- <-.
  all: split; reflexivity.
Qed.

End Properties.

(** * Concrete runs *)

Lemma repack_failure_keeps_reference_witness :
  existsb (fails_before_swap sample_manifest_type)
    (run_trace commit_fails sample_ctx) = true /\
  ((exists err, run_outcome commit_fails sample_ctx = Returned (Some err)) /\
   existsb is_ref_call (run_trace commit_fails sample_ctx) = false /\
   (forall tag,
       getReference (refs_after (run_trace commit_fails sample_ctx) sample_refs) tag
       = getReference sample_refs tag)).
Proof.
  split.
  - vm_compute. reflexivity.
  - apply (repack_failure_keeps_reference sample_manifest_type sample_keywords "rootfs"
             "2006-01-02T15:04:05Z07:00" sample_format nat
             (scripted commit_fails) 0 sample_ctx sample_refs).
    vm_compute. reflexivity.
Defined.

Lemma repack_rejects_other_media_types_witness :
  first_of loaded_meta (run_trace from_manifest_list sample_ctx) = Some manifest_list /\
  ispec.MediaType (From manifest_list) <> sample_manifest_type /\
  (run_outcome from_manifest_list sample_ctx
   = Returned (Some (Wrap (New ("descriptor does not point to ispec.MediaTypeImageManifest: not implemented: "
                                +:+ ispec.MediaType (From manifest_list)))
                          "invalid saved from descriptor")) /\
   steps (run_trace from_manifest_list sample_ctx) = [SReadBundleMeta] /\
   (forall refs, refs_after (run_trace from_manifest_list sample_ctx) refs = refs) /\
   (forall blobs, blobs_after (run_trace from_manifest_list sample_ctx) blobs = blobs)).
Proof.
  split; [vm_compute; reflexivity |].
  split; [vm_compute; discriminate |].
  apply (repack_rejects_other_media_types sample_manifest_type sample_keywords "rootfs"
           "2006-01-02T15:04:05Z07:00" sample_format nat
           (scripted from_manifest_list) 0 sample_ctx manifest_list).
  - vm_compute. reflexivity.
  - vm_compute. discriminate.
Defined.

Lemma repack_stage_order_witness :
  run_outcome all_succeed sample_ctx = Returned None /\
  steps (run_trace all_succeed sample_ctx) = pipeline /\
  stages (run_trace all_succeed sample_ctx) = stage_machine /\
  forallb (fun e => negb (is_step e) || ok e) (run_trace all_succeed sample_ctx) = true.
Proof.
  split; [vm_compute; reflexivity |].
  apply (repack_stage_order sample_manifest_type sample_keywords "rootfs"
           "2006-01-02T15:04:05Z07:00" sample_format nat
           (scripted all_succeed) 0 sample_ctx).
  vm_compute. reflexivity.
Defined.

Lemma repack_swaps_reference_in_two_steps_witness :
  first_of committed (run_trace put_fails sample_ctx) = Some (sc_descriptor put_fails) /\
  ((exists (engine : Engine) (tagName : string),
       assert_string (sample_ctx !! "--image-tag") = Some tagName /\
       ((exists err,
            observe ref_op (run_trace put_fails sample_ctx)
            = [OpDelete engine tagName (Some err)] /\
            run_outcome put_fails sample_ctx = Returned (Some err))
        \/
        (exists res,
            observe ref_op (run_trace put_fails sample_ctx)
            = [OpDelete engine tagName None;
               OpPut engine tagName (sc_descriptor put_fails) res] /\
            run_outcome put_fails sample_ctx = Returned res /\
            forall refs,
              getReference (refs_after (run_trace put_fails sample_ctx) refs) tagName
              = match res with None => Some (sc_descriptor put_fails) | Some _ => None end))) /\
   (forall blobs,
       ispec.Digest (sc_descriptor put_fails)
       ∈ blobs_after (run_trace put_fails sample_ctx) blobs)).
Proof.
  split; [vm_compute; reflexivity |].
  apply (repack_swaps_reference_in_two_steps sample_manifest_type sample_keywords "rootfs"
           "2006-01-02T15:04:05Z07:00" sample_format nat
           (scripted put_fails) 0 sample_ctx (sc_descriptor put_fails)).
  vm_compute. reflexivity.
Defined.

(** In the run whose put fails the tag that pointed at the base image is
    gone. *)
Example put_fails_leaves_tag_absent :
  run_outcome put_fails sample_ctx = Returned (Some (New "reference is locked")) /\
  getReference sample_refs "latest"
  = Some (sample_descriptor sample_manifest_type "sha256:0123abcd") /\
  getReference (refs_after (run_trace put_fails sample_ctx) sample_refs) "latest" = None.
Proof. vm_compute. repeat split. Qed.

(** A history override that holds a boolean: the type assertion panics
    after the image metadata was read, nothing is added, and the deferred
    calls still close the reader, the file and the engine. *)
Example non_string_override_panics :
  run_outcome all_succeed ctx_bad_author = Panicked /\
  steps (run_trace all_succeed ctx_bad_author)
  = [SReadBundleMeta; SOpen; SNew; SOpenMtree; SParseSpec; SCheck;
     SGenerateLayer; SMeta] /\
  observe closed (run_trace all_succeed ctx_bad_author)
  = [RReader 4; RFile 3; REngine 1].
Proof. vm_compute. repeat split. Qed.

(** C5 (as stated): a base descriptor with a [sha512] digest.  The file
    [repack] opens keeps the colon, so it is not the file with the colon
    replaced by an underscore. *)
Lemma snapshot_path_keeps_colon_of_sha512 :
  first_of opened_file (run_trace sha512_base sample_ctx)
  = Some "bundle/sha512:cafe.mtree" /\
  filepath.Join ["bundle"; spec_snapshot_name "sha512:cafe"]
  = "bundle/sha512_cafe.mtree" /\
  first_of opened_file (run_trace sha512_base sample_ctx)
  <> Some (filepath.Join ["bundle"; spec_snapshot_name (ispec.Digest (From sha512_meta))]).
Proof.
  split; [vm_compute; reflexivity |].
  split; [vm_compute; reflexivity |].
  vm_compute. discriminate.
Qed.

Lemma repack_snapshot_path_witness :
  first_of loaded_meta (run_trace all_succeed sample_ctx) = Some good_meta /\
  In "bundle/sha256_0123abcd.mtree" (observe opened_file (run_trace all_succeed sample_ctx)) /\
  (exists bundlePath,
      assert_string (sample_ctx !! "bundle") = Some bundlePath /\
      observe opened_file (run_trace all_succeed sample_ctx)
      = ["bundle/sha256_0123abcd.mtree"] /\
      "bundle/sha256_0123abcd.mtree"
      = filepath.Join [bundlePath; snapshot_name (ispec.Digest (From good_meta))] /\
      (forall hex,
          ispec.Digest (From good_meta) = "sha256:" +:+ hex ->
          "bundle/sha256_0123abcd.mtree"
          = filepath.Join [bundlePath; ("sha256_" +:+ hex) +:+ ".mtree"] /\
          "bundle/sha256_0123abcd.mtree"
          = filepath.Join [bundlePath; spec_snapshot_name (ispec.Digest (From good_meta))])).
Proof.
  split; [vm_compute; reflexivity |].
  split; [vm_compute; left; reflexivity |].
  apply (repack_snapshot_path sample_manifest_type sample_keywords "rootfs"
           "2006-01-02T15:04:05Z07:00" sample_format nat
           (scripted all_succeed) 0 sample_ctx good_meta
           "bundle/sha256_0123abcd.mtree").
  - vm_compute. reflexivity.
  - vm_compute. left. reflexivity.
Defined.

Lemma repack_selects_evaluator_witness :
  first_of loaded_meta (run_trace rootless sample_ctx) = Some rootless_meta /\
  In ("bundle/rootfs", sc_spec rootless, sample_keywords, umoci.RootlessFsEval)
     (observe check_args (run_trace rootless sample_ctx)) /\
  (sample_keywords = sample_keywords /\
   umoci.RootlessFsEval
   = (if layer.Rootless (MapOptions rootless_meta)
      then umoci.RootlessFsEval else umoci.DefaultFsEval)).
Proof.
  split; [vm_compute; reflexivity |].
  split; [vm_compute; left; reflexivity |].
  apply (repack_selects_evaluator sample_manifest_type sample_keywords "rootfs"
           "2006-01-02T15:04:05Z07:00" sample_format nat
           (scripted rootless) 0 sample_ctx rootless_meta
           "bundle/rootfs" (sc_spec rootless)).
  - vm_compute. reflexivity.
  - vm_compute. left. reflexivity.
Defined.

Lemma repack_history_entry_witness :
  In sample_entry (observe added_history (run_trace all_succeed ctx_with_history)) /\
  (exists (imageMeta : mutate.Meta) (now : Time),
      first_of image_meta (run_trace all_succeed ctx_with_history) = Some imageMeta /\
      first_of clock (run_trace all_succeed ctx_with_history) = Some now /\
      takes_override ctx_with_history "--history.author" (ispec.Author sample_entry)
        (mutate.Author imageMeta) /\
      takes_override ctx_with_history "--history.comment" (ispec.Comment sample_entry) "" /\
      takes_override ctx_with_history "--history.created" (ispec.Created sample_entry)
        (sample_format now "2006-01-02T15:04:05Z07:00") /\
      takes_override ctx_with_history "--history.created_by"
        (ispec.CreatedBy sample_entry) "umoci config" /\
      ispec.EmptyLayer sample_entry = false).
Proof.
  split; [vm_compute; left; reflexivity |].
  apply (repack_history_entry sample_manifest_type sample_keywords "rootfs"
           "2006-01-02T15:04:05Z07:00" sample_format nat
           (scripted all_succeed) 0 ctx_with_history sample_entry).
  vm_compute. left. reflexivity.
Defined.

Lemma repack_appends_for_every_diff_witness :
  first_of checked (run_trace all_succeed sample_ctx) = Some [] /\
  run_outcome all_succeed sample_ctx = Returned None /\
  count_step SGenerateLayer (run_trace all_succeed sample_ctx) = 1 /\
  count_step SAdd (run_trace all_succeed sample_ctx) = 1 /\
  count_step SCommit (run_trace all_succeed sample_ctx) = 1 /\
  (forall (layer_of : Reader -> ispec.Descriptor) (base : Image),
   exists (reader : Reader) (entry : ispec.History),
     observe added (run_trace all_succeed sample_ctx) = [(reader, entry)] /\
     ispec.EmptyLayer entry = false /\
     image_after layer_of (run_trace all_succeed sample_ctx) base
     = {| layers := layers base ++ [layer_of reader];
          history := history base ++ [entry] |}).
Proof.
  assert (Hchecked : first_of checked (run_trace all_succeed sample_ctx) = Some [])
    by (vm_compute; reflexivity).
  assert (Hnil : run_outcome all_succeed sample_ctx = Returned None)
    by (vm_compute; reflexivity).
  destruct (repack_appends_for_every_diff sample_manifest_type sample_keywords "rootfs"
              "2006-01-02T15:04:05Z07:00" sample_format nat
              (scripted all_succeed) 0 sample_ctx [] Hchecked)
    as (_ & Hgen & _ & _ & Hsuccess).
  destruct (Hsuccess Hnil) as (Hadd & Hcommit & Himage).
  repeat split; assumption.
Defined.

(** C8: a run in which [DeleteReference] fails, one in which
    [PutReference] fails, and one in which [Commit] fails.  The error of
    the reference calls comes back as it is, without a message naming the
    stage; the error of [Commit] comes back inside its stage message. *)
Theorem repack_returns_reference_errors_bare :
  run_outcome delete_fails sample_ctx = Returned (Some (New "reference is locked")) /\
  run_outcome put_fails sample_ctx = Returned (Some (New "reference is locked")) /\
  run_outcome commit_fails sample_ctx
  = Returned (Some (Wrap (New "disk full") "commit mutated image")).
Proof. vm_compute. repeat split. Qed.

(** * Further properties: the hook, the arguments, the panics *)

(** X1: the [Before] hook accepts exactly the argument lists that hold one
    non-empty bundle path.  It then binds [bundle] to that path and leaves
    every other key as it was; when it refuses, the metadata is unchanged,
    and the error tells a wrong number of arguments from an empty path. *)
Theorem Before_accepts_one_bundle :
  forall (args : list string) (ctx : Metadata),
    (fst (Before args ctx) = None <-> exists bundle, args = [bundle] /\ bundle <> "") /\
    (forall bundle,
        args = [bundle] -> bundle <> "" ->
        snd (Before args ctx) = <["bundle" := IString bundle]> ctx) /\
    (fst (Before args ctx) <> None -> snd (Before args ctx) = ctx) /\
    (forall key, key <> "bundle" -> snd (Before args ctx) !! key = ctx !! key) /\
    (length args <> 1 ->
     fst (Before args ctx)
     = Some (New "invalid number of positional arguments: expected <bundle>")) /\
    (args = [""] ->
     fst (Before args ctx) = Some (New "bundle path cannot be empty")).
Proof.
  intros args ctx. unfold Before.
  destruct args as [| a [| b args]]; simpl.
  - repeat split; try congruence; try (intros H; discriminate H); auto.
    + intros (bundle & H & _). discriminate H.
  - destruct (String.eqb a "") eqn:E; simpl.
    + apply String.eqb_eq in E. subst a.
      repeat split; try congruence; try (intros H; discriminate H); auto.
      * intros (bundle & H & Hne). injection H as <-. congruence.
    + apply String.eqb_neq in E.
      repeat split; try congruence; auto.
      * intros _. exists a. split; [reflexivity | exact E].
      * intros key Hkey. apply lookup_insert_ne. congruence.
  - repeat split; try congruence; try (intros H; discriminate H); auto.
    + intros (bundle & H & _). discriminate H.
Qed.

Lemma history_overrides_panics (ctx : Metadata) (h0 : ispec.History) :
  history_overrides ctx h0 = None <-> bad_override ctx = true.
Proof.
  unfold history_overrides, override, bad_override, history_keys, assert_string.
  simpl.
  destruct (ctx !! "--history.author") as [[] |];
    destruct (ctx !! "--history.comment") as [[] |];
    destruct (ctx !! "--history.created") as [[] |];
    destruct (ctx !! "--history.created_by") as [[] |];
    simpl; split; intros H; first [reflexivity | discriminate H].
Qed.

Lemma Replace_absent (old new s : string) (n : nat) :
  contains old s = false -> strings.Replace s old new n = s.
Proof.
  unfold strings.Replace. destruct (String.eqb old new); [reflexivity |].
  revert n. induction s as [| c s IH]; intros n H; [reflexivity |].
  cbn [contains] in H. apply orb_false_iff in H. destruct H as [Hp Hs].
  destruct n as [| n]; [reflexivity |].
  cbn [strings.replace_from]. rewrite Hp. f_equal. apply IH. exact Hs.
Qed.

(** Membership in a list of at most one element. *)
Ltac one_of Hin :=
  first [ solve [destruct Hin] | destruct Hin as [<- | []]; reflexivity ].

Ltac one_tuple Hin :=
  first [ solve [destruct Hin]
        | destruct Hin as [E | []]; inversion E; subst; repeat split; reflexivity ].

Section Coverage.

Variable ispec_MediaTypeImageManifest : string.
Variable MtreeKeywords : list mtree.Keyword.
Variable layer_RootfsName : string.
Variable igen_ISO8601 : string.
Variable time_Format : Time -> string -> string.

#[local] Abbreviation repack_ :=
  (repack ispec_MediaTypeImageManifest MtreeKeywords layer_RootfsName
     igen_ISO8601 time_Format).

(** X2: the hook and the action fit together.  When [Before] accepted the
    arguments and the metadata holds the image path and the tag as
    strings, [repack] on the metadata the hook left reads the bundle
    metadata exactly once, from the path given on the command line. *)
Theorem repack_reads_bundle_of_Before :
  forall (X : Type) (h : Handler X) (x : X) (args : list string)
         (ctx ctx' : Metadata) (imagePath tagName : string),
    Before args ctx = (None, ctx') ->
    assert_string (ctx !! "--image-path") = Some imagePath ->
    assert_string (ctx !! "--image-tag") = Some tagName ->
    exists bundle,
      args = [bundle] /\
      observe bundle_read (trace h (repack_ ctx') x) = [bundle].
Proof.
  intros X h x args ctx ctx' imagePath tagName HB Hi Ht.
  unfold Before in HB.
  destruct args as [| a [| b args]]; simpl in HB; try discriminate HB.
  destruct (String.eqb a "") eqn:E; [discriminate HB |].
  injection HB as <-. exists a. split; [reflexivity |].
  assert (Hi' : assert_string (<["bundle" := IString a]> ctx !! "--image-path")
                = Some imagePath)
    by (rewrite lookup_insert_ne; [exact Hi | discriminate]).
  assert (Ht' : assert_string (<["bundle" := IString a]> ctx !! "--image-tag")
                = Some tagName)
    by (rewrite lookup_insert_ne; [exact Ht | discriminate]).
  assert (Hb' : assert_string (<["bundle" := IString a]> ctx !! "bundle") = Some a)
    by (rewrite lookup_insert_eq; reflexivity).
  clear Hi Ht. revert Hi' Ht' Hb'.
  generalize (<["bundle" := IString a]> ctx). clear ctx. intros ctx.
  all_paths. exec.
  all: try (intros H1 H2 H3; first [discriminate H1 | discriminate H2 | discriminate H3]).
  all: intros _ _ H3; injection H3 as ->; reflexivity.
Qed.

(** X3: [repack] makes no call at all exactly when one of [--image-path],
    [--image-tag] and [bundle] is missing from the metadata or is not a
    string; it then panics.  With the three in place the first thing it
    does is read the bundle metadata. *)
Theorem repack_needs_its_three_strings :
  forall (X : Type) (h : Handler X) (x : X) (ctx : Metadata),
    (trace h (repack_ ctx) x = [] <->
     assert_string (ctx !! "--image-path") = None \/
     assert_string (ctx !! "--image-tag") = None \/
     assert_string (ctx !! "bundle") = None) /\
    (trace h (repack_ ctx) x = [] -> outcome h (repack_ ctx) x = Panicked) /\
    (trace h (repack_ ctx) x <> [] ->
     head (steps (trace h (repack_ ctx) x)) = Some SReadBundleMeta).
Proof.
  intros X h x ctx. all_paths. exec.
  all: repeat split; try reflexivity; try (intros H; discriminate H); auto.
  all: try (intros [H | [H | H]]; discriminate H).
  all: try (intros H; exfalso; apply H; reflexivity).
Qed.

(** X6: after its first three assertions [repack] panics in one case
    only: the image metadata was read and one of the four [--history.*]
    keys holds something that is not a string.  With such a key in the
    metadata no run adds a layer, commits or touches a reference. *)
Theorem repack_panics_on_bad_override_only :
  forall (X : Type) (h : Handler X) (x : X) (ctx : Metadata),
    (outcome h (repack_ ctx) x = Panicked <->
     trace h (repack_ ctx) x = [] \/
     (first_of image_meta (trace h (repack_ ctx) x) <> None /\
      bad_override ctx = true)) /\
    (bad_override ctx = true ->
     count_step SAdd (trace h (repack_ ctx) x) = 0 /\
     count_step SCommit (trace h (repack_ ctx) x) = 0 /\
     observe ref_op (trace h (repack_ ctx) x) = []).
Proof.
  intros X h x ctx. all_paths. exec.
  all: try match goal with
           | E : history_overrides _ ?h0 = Some _ |- _ =>
               assert (Hbad : bad_override ctx = false)
                 by (destruct (bad_override ctx) eqn:B; [| reflexivity];
                     apply (history_overrides_panics ctx h0) in B;
                     rewrite B in E; discriminate E);
               rewrite Hbad
           | E : history_overrides _ _ = None |- _ =>
               apply history_overrides_panics in E; rewrite E
           end.
  all: unfold first_of; simpl.
  all: split; [split |].
  all: try (intros H; discriminate H).
  all: try (intros [H | [H1 H2]]; [discriminate H | first [discriminate H2 | exfalso; apply H1; reflexivity]]).
  all: try (intros _; repeat split; reflexivity).
  all: try (intros _; left; reflexivity).
  all: try (intros _; right; split; [discriminate | reflexivity]).
Qed.

(** X7: [repack] returns nil exactly when all twelve pipeline calls were
    made and every one of them succeeded.  What the deferred [Close] calls
    return plays no part: an error of theirs is dropped. *)
Theorem repack_nil_iff_pipeline_succeeded :
  forall (X : Type) (h : Handler X) (x : X) (ctx : Metadata),
    outcome h (repack_ ctx) x = Returned None <->
    steps (trace h (repack_ ctx) x) = pipeline /\
    forallb (fun e => negb (is_step e) || ok e) (trace h (repack_ ctx) x) = true.
Proof.
  intros X h x ctx. all_paths. exec.
  all: split; [intros H | intros [H1 H2]].
  all: try discriminate H.
  all: try discriminate H1.
  all: try discriminate H2.
  all: try (split; reflexivity).
  all: reflexivity.
Qed.

(** X8: [repack] only ever uses the handles it was given.  The engine on
    which the mutator is created, the references are changed and [Close]
    is called is the one [cas.Open] returned; the mutator asked for the
    image metadata, [Add] and [Commit] is the one [mutate.New] returned;
    the file parsed and closed is the one [os.Open] returned; the reader
    added and closed is the one [GenerateLayer] returned. *)
Theorem repack_threads_its_handles :
  forall (X : Type) (h : Handler X) (x : X) (ctx : Metadata),
    (forall engine,
        In engine (observe engine_used (trace h (repack_ ctx) x)) ->
        first_of engine_opened (trace h (repack_ ctx) x) = Some engine) /\
    (forall mutator,
        In mutator (observe mutator_used (trace h (repack_ ctx) x)) ->
        first_of mutator_made (trace h (repack_ ctx) x) = Some mutator) /\
    (forall mfh,
        In mfh (observe file_used (trace h (repack_ ctx) x)) ->
        first_of file_opened (trace h (repack_ ctx) x) = Some mfh) /\
    (forall reader,
        In reader (observe reader_used (trace h (repack_ ctx) x)) ->
        first_of reader_made (trace h (repack_ ctx) x) = Some reader).
Proof.
  intros X h x ctx. all_paths. exec.
  all: unfold first_of; simpl.
  all: repeat split; intros ? Hin.
  all: repeat (destruct Hin as [<- | Hin]; [reflexivity |]).
  all: destruct Hin.
Qed.

(** X9: what [repack] hands to the other packages comes from the command
    line and the bundle metadata.  The bundle metadata is read from the
    bundle path and the store is opened at the image path; the mutator is
    created for the descriptor the bundle was unpacked from; the
    comparison runs on the manifest [ParseSpec] returned; the comparison
    and the layer generation run on the same root, the rootfs directory of
    the bundle; and the layer is generated with the map options saved in
    the bundle metadata. *)
Theorem repack_arguments_come_from_metadata :
  forall (X : Type) (h : Handler X) (x : X) (ctx : Metadata)
         (imagePath bundlePath : string),
    assert_string (ctx !! "--image-path") = Some imagePath ->
    assert_string (ctx !! "bundle") = Some bundlePath ->
    (forall bundle,
        In bundle (observe bundle_read (trace h (repack_ ctx) x)) ->
        bundle = bundlePath) /\
    (forall path,
        In path (observe store_opened (trace h (repack_ ctx) x)) ->
        path = imagePath) /\
    (forall meta,
        first_of loaded_meta (trace h (repack_ ctx) x) = Some meta ->
        (forall from,
            In from (observe mutator_base (trace h (repack_ ctx) x)) ->
            from = From meta) /\
        (forall root spec keywords fsEval,
            In (root, spec, keywords, fsEval)
               (observe check_args (trace h (repack_ ctx) x)) ->
            root = filepath.Join [bundlePath; layer_RootfsName] /\
            first_of parsed (trace h (repack_ ctx) x) = Some spec) /\
        (forall root diffs opt,
            In (root, diffs, opt)
               (observe generate_args (trace h (repack_ ctx) x)) ->
            root = filepath.Join [bundlePath; layer_RootfsName] /\
            first_of checked (trace h (repack_ ctx) x) = Some diffs /\
            opt = MapOptions meta)).
Proof.
  intros X h x ctx imagePath bundlePath. all_paths. exec.
  all: try (intros H; discriminate H).
  all: intros Hi Hb.
  all: try discriminate Hi.
  all: try discriminate Hb.
  all: unfold first_of; simpl.
  all: try solve [repeat split; intros; first [contradiction | discriminate]].
  all: injection Hi as <-; injection Hb as <-.
  all: split; [intros ? Hin; one_of Hin | split; [intros ? Hin; one_of Hin |]].
  all: intros meta Hm; first [discriminate Hm | injection Hm as <-].
  all: split; [intros ? Hin; one_of Hin | split].
  all: try (intros root spec keywords fsEval Hin; one_tuple Hin).
  all: intros root diffs opt Hin; one_tuple Hin.
Qed.

(** X10: the only reference [repack] ever deletes or puts is the tag given
    in [--image-tag]; every other name of the store reads after the run as
    it did before. *)
Theorem repack_touches_only_its_tag :
  forall (X : Type) (h : Handler X) (x : X) (ctx : Metadata) (tagName : string),
    assert_string (ctx !! "--image-tag") = Some tagName ->
    (forall op,
        In op (observe ref_op (trace h (repack_ ctx) x)) -> ref_name op = tagName) /\
    (forall refs name,
        name <> tagName ->
        getReference (refs_after (trace h (repack_ ctx) x) refs) name
        = getReference refs name).
Proof.
  intros X h x ctx tagName. all_paths. exec.
  all: try (intros H; discriminate H).
  all: intros H.
  all: try solve [split; [intros op [] | reflexivity]].
  all: injection H as <-.
  all: split; [intros op Hin | intros refs name Hne; unfold getReference].
  all: try reflexivity.
  all: try (repeat (destruct Hin as [<- | Hin]; [reflexivity |]); destruct Hin).
  all: rewrite ?lookup_insert_ne, ?lookup_delete_ne by congruence; reflexivity.
Qed.

(** X11: when [repack] returns nil, [Commit] returned a descriptor, the tag
    is bound to exactly that descriptor, and the manifest it names is
    among the blobs of the store. *)
Theorem repack_success_moves_tag :
  forall (X : Type) (h : Handler X) (x : X) (ctx : Metadata) (tagName : string),
    assert_string (ctx !! "--image-tag") = Some tagName ->
    outcome h (repack_ ctx) x = Returned None ->
    exists newDescriptor,
      first_of committed (trace h (repack_ ctx) x) = Some newDescriptor /\
      (forall refs,
          getReference (refs_after (trace h (repack_ ctx) x) refs) tagName
          = Some newDescriptor) /\
      (forall blobs,
          ispec.Digest newDescriptor ∈ blobs_after (trace h (repack_ ctx) x) blobs).
Proof.
  intros X h x ctx tagName Ht Hnil.
  assert (Hc : exists d, first_of committed (trace h (repack_ ctx) x) = Some d /\
                         forall refs,
                           getReference (refs_after (trace h (repack_ ctx) x) refs) tagName
                           = Some d).
  { revert Ht Hnil. all_paths. exec.
    all: try (intros H; discriminate H).
    all: intros Ht Hnil; try discriminate Hnil.
    injection Ht as <-. eexists. split; [reflexivity |].
    intros refs. unfold getReference. apply lookup_insert_eq. }
  destruct Hc as (d & Hd & Hrefs). exists d.
  split; [exact Hd | split; [exact Hrefs |]].
  intros blobs. apply committed_blob_stays, Hd.
Qed.

(** X12: a digest in which the text [sha256:] does not occur names its
    snapshot file as it is, colon included: the file [repack] opens is the
    digest followed by [.mtree], joined to the bundle path. *)
Theorem repack_snapshot_of_other_digest :
  forall (X : Type) (h : Handler X) (x : X) (ctx : Metadata) (meta : UmociMeta)
         (name : string),
    first_of loaded_meta (trace h (repack_ ctx) x) = Some meta ->
    contains "sha256:" (ispec.Digest (From meta)) = false ->
    In name (observe opened_file (trace h (repack_ ctx) x)) ->
    exists bundlePath,
      assert_string (ctx !! "bundle") = Some bundlePath /\
      name = filepath.Join [bundlePath; ispec.Digest (From meta) +:+ ".mtree"].
Proof.
  intros X h x ctx meta name. all_paths. exec.
  all: unfold first_of; simpl.
  all: try (intros H; discriminate H).
  all: try solve [intros _ _ []].
  all: intros H Hc [<- | []]; injection H as ->.
  all: eexists; split; [reflexivity |].
  all: rewrite (Replace_absent _ _ _ _ Hc); reflexivity.
Qed.

(** X13: [repack] makes up one error only.  An error it returns is either
    the error of the one pipeline call that failed, inside the message of
    its stage or, for the two reference calls, as it is; or no call failed
    and it is the "invalid saved from descriptor" error raised for bundle
    metadata whose descriptor is not an image manifest. *)
Theorem repack_errors_have_a_cause :
  forall (X : Type) (h : Handler X) (x : X) (ctx : Metadata) (err : Error),
    outcome h (repack_ ctx) x = Returned (Some err) ->
    (exists s cause,
        observe failure (trace h (repack_ ctx) x) = [(s, cause)] /\
        err = match stage_context s with
              | Some msg => Wrap cause msg
              | None => cause
              end)
    \/
    (observe failure (trace h (repack_ ctx) x) = [] /\
     exists meta,
       first_of loaded_meta (trace h (repack_ ctx) x) = Some meta /\
       ispec.MediaType (From meta) <> ispec_MediaTypeImageManifest /\
       err = Wrap (New ("descriptor does not point to ispec.MediaTypeImageManifest: not implemented: "
                        +:+ ispec.MediaType (From meta)))
                  "invalid saved from descriptor").
Proof.
  intros X h x ctx err. all_paths. exec.
  all: unfold first_of; simpl.
  all: intros H; try discriminate H.
  all: injection H as <-.
  all: try (left; do 2 eexists; split; reflexivity).
  right. split; [reflexivity |]. eexists. split; [reflexivity |].
  split; [| reflexivity].
  match goal with
  | E : String.eqb _ _ = false |- _ => apply String.eqb_neq in E; exact E
  end.
Qed.

End Coverage.

(** * Concrete runs for the further properties *)

Lemma repack_reads_bundle_of_Before_witness :
  Before ["bundle"] ctx_before = (None, <["bundle" := IString "bundle"]> ctx_before) /\
  assert_string (ctx_before !! "--image-path") = Some "image" /\
  assert_string (ctx_before !! "--image-tag") = Some "latest" /\
  (exists bundle,
      ["bundle"] = [bundle] /\
      observe bundle_read
        (run_trace all_succeed (<["bundle" := IString "bundle"]> ctx_before))
      = [bundle]).
Proof.
  split; [reflexivity |].
  split; [vm_compute; reflexivity |].
  split; [vm_compute; reflexivity |].
  apply (repack_reads_bundle_of_Before sample_manifest_type sample_keywords "rootfs"
           "2006-01-02T15:04:05Z07:00" sample_format nat
           (scripted all_succeed) 0 ["bundle"] ctx_before
           (<["bundle" := IString "bundle"]> ctx_before) "image" "latest").
  - reflexivity.
  - vm_compute. reflexivity.
  - vm_compute. reflexivity.
Defined.

Lemma repack_error_contexts_witness :
  In (SCommit, New "disk full") (observe failure (run_trace commit_fails sample_ctx)) /\
  (observe failure (run_trace commit_fails sample_ctx) = [(SCommit, New "disk full")] /\
   run_outcome commit_fails sample_ctx
   = Returned (Some (match stage_context SCommit with
                     | Some msg => Wrap (New "disk full") msg
                     | None => New "disk full"
                     end))).
Proof.
  split; [vm_compute; left; reflexivity |].
  apply (repack_error_contexts sample_manifest_type sample_keywords "rootfs"
           "2006-01-02T15:04:05Z07:00" sample_format nat
           (scripted commit_fails) 0 sample_ctx SCommit (New "disk full")).
  vm_compute. left. reflexivity.
Defined.

Lemma repack_no_swap_without_commit_witness :
  first_of committed (run_trace commit_fails sample_ctx) = None /\
  (observe ref_op (run_trace commit_fails sample_ctx) = [] /\
   refs_after (run_trace commit_fails sample_ctx) sample_refs = sample_refs).
Proof.
  split; [vm_compute; reflexivity |].
  apply (repack_no_swap_without_commit sample_manifest_type sample_keywords "rootfs"
           "2006-01-02T15:04:05Z07:00" sample_format nat
           (scripted commit_fails) 0 sample_ctx sample_refs).
  vm_compute. reflexivity.
Defined.

Lemma repack_arguments_come_from_metadata_witness :
  assert_string (sample_ctx !! "--image-path") = Some "image" /\
  assert_string (sample_ctx !! "bundle") = Some "bundle" /\
  first_of loaded_meta (run_trace rootless sample_ctx) = Some rootless_meta /\
  In ("bundle/rootfs", sc_diffs rootless, MapOptions rootless_meta)
     (observe generate_args (run_trace rootless sample_ctx)) /\
  (forall root diffs opt,
      In (root, diffs, opt) (observe generate_args (run_trace rootless sample_ctx)) ->
      root = filepath.Join ["bundle"; "rootfs"] /\
      first_of checked (run_trace rootless sample_ctx) = Some diffs /\
      opt = MapOptions rootless_meta).
Proof.
  assert (Hi : assert_string (sample_ctx !! "--image-path") = Some "image")
    by (vm_compute; reflexivity).
  assert (Hb : assert_string (sample_ctx !! "bundle") = Some "bundle")
    by (vm_compute; reflexivity).
  assert (Hm : first_of loaded_meta (run_trace rootless sample_ctx) = Some rootless_meta)
    by (vm_compute; reflexivity).
  destruct (repack_arguments_come_from_metadata sample_manifest_type sample_keywords
              "rootfs" "2006-01-02T15:04:05Z07:00" sample_format nat
              (scripted rootless) 0 sample_ctx "image" "bundle" Hi Hb)
    as (_ & _ & Hmeta).
  destruct (Hmeta rootless_meta Hm) as (_ & _ & Hgen).
  split; [exact Hi | split; [exact Hb | split; [exact Hm | split]]].
  - vm_compute. left. reflexivity.
  - exact Hgen.
Defined.

Lemma repack_touches_only_its_tag_witness :
  assert_string (sample_ctx !! "--image-tag") = Some "latest" /\
  "stable" <> "latest" /\
  getReference (refs_after (run_trace all_succeed sample_ctx)
                  (<["stable" := sc_descriptor all_succeed]> sample_refs)) "stable"
  = getReference (<["stable" := sc_descriptor all_succeed]> sample_refs) "stable".
Proof.
  assert (Ht : assert_string (sample_ctx !! "--image-tag") = Some "latest")
    by (vm_compute; reflexivity).
  assert (Hne : "stable" <> "latest") by discriminate.
  split; [exact Ht | split; [exact Hne |]].
  apply (repack_touches_only_its_tag sample_manifest_type sample_keywords "rootfs"
           "2006-01-02T15:04:05Z07:00" sample_format nat
           (scripted all_succeed) 0 sample_ctx "latest" Ht).
  exact Hne.
Defined.

Lemma repack_success_moves_tag_witness :
  assert_string (sample_ctx !! "--image-tag") = Some "latest" /\
  run_outcome all_succeed sample_ctx = Returned None /\
  (exists newDescriptor,
      first_of committed (run_trace all_succeed sample_ctx) = Some newDescriptor /\
      (forall refs,
          getReference (refs_after (run_trace all_succeed sample_ctx) refs) "latest"
          = Some newDescriptor) /\
      (forall blobs,
          ispec.Digest newDescriptor ∈ blobs_after (run_trace all_succeed sample_ctx) blobs)).
Proof.
  split; [vm_compute; reflexivity |].
  split; [vm_compute; reflexivity |].
  apply (repack_success_moves_tag sample_manifest_type sample_keywords "rootfs"
           "2006-01-02T15:04:05Z07:00" sample_format nat
           (scripted all_succeed) 0 sample_ctx "latest").
  - vm_compute. reflexivity.
  - vm_compute. reflexivity.
Defined.

Lemma repack_snapshot_of_other_digest_witness :
  first_of loaded_meta (run_trace sha512_base sample_ctx) = Some sha512_meta /\
  contains "sha256:" (ispec.Digest (From sha512_meta)) = false /\
  In "bundle/sha512:cafe.mtree" (observe opened_file (run_trace sha512_base sample_ctx)) /\
  (exists bundlePath,
      assert_string (sample_ctx !! "bundle") = Some bundlePath /\
      "bundle/sha512:cafe.mtree"
      = filepath.Join [bundlePath; ispec.Digest (From sha512_meta) +:+ ".mtree"]).
Proof.
  split; [vm_compute; reflexivity |].
  split; [vm_compute; reflexivity |].
  split; [vm_compute; left; reflexivity |].
  apply (repack_snapshot_of_other_digest sample_manifest_type sample_keywords "rootfs"
           "2006-01-02T15:04:05Z07:00" sample_format nat
           (scripted sha512_base) 0 sample_ctx sha512_meta "bundle/sha512:cafe.mtree").
  - vm_compute. reflexivity.
  - vm_compute. reflexivity.
  - vm_compute. left. reflexivity.
Defined.

Lemma repack_errors_have_a_cause_witness :
  run_outcome put_fails sample_ctx = Returned (Some (New "reference is locked")) /\
  ((exists s cause,
       observe failure (run_trace put_fails sample_ctx) = [(s, cause)] /\
       New "reference is locked"
       = match stage_context s with
         | Some msg => Wrap cause msg
         | None => cause
         end)
   \/
   (observe failure (run_trace put_fails sample_ctx) = [] /\
    exists meta,
      first_of loaded_meta (run_trace put_fails sample_ctx) = Some meta /\
      ispec.MediaType (From meta) <> sample_manifest_type /\
      New "reference is locked"
      = Wrap (New ("descriptor does not point to ispec.MediaTypeImageManifest: not implemented: "
                   +:+ ispec.MediaType (From meta)))
             "invalid saved from descriptor")).
Proof.
  split; [vm_compute; reflexivity |].
  apply (repack_errors_have_a_cause sample_manifest_type sample_keywords "rootfs"
           "2006-01-02T15:04:05Z07:00" sample_format nat
           (scripted put_fails) 0 sample_ctx (New "reference is locked")).
  vm_compute. reflexivity.
Defined.
